(** * GenieTalk Agentic AI: a shallow embedding of [agent.py]

    The script is a Streamlit page: text extraction from uploads,
    role-specific prompt builders, one outbound model call per turn, and
    a session store of (user, assistant) turns.  Python [str] values are
    sequences of Unicode code points, [bytes] are sequences of bytes;
    the model call and the PDF reader are external and may raise. *)

From Stdlib.Strings Require Import String Ascii Byte.
From Stdlib Require Import List NArith ZArith Lia Bool Arith.
From Stdlib Require Zbitwise.
Import ListNotations.
Open Scope N_scope.

(** ** Python strings *)

Module PyStr.

(** A [str] is a list of code points. *)
Definition str := list N.
Definition bytes := list byte.

Definition str_eqb (a b : str) : bool :=
  if list_eq_dec N.eq_dec a b then true else false.

(** Truthiness of a [str]: non-empty. *)
Definition truthy (s : str) : bool :=
  match s with [] => false | _ :: _ => true end.

(** [str.isspace] on one code point (the 29 code points CPython's
    [Py_UNICODE_ISSPACE] accepts). *)
Definition isspace (c : N) : bool :=
  ((0x09 <=? c) && (c <=? 0x0D)) || ((0x1C <=? c) && (c <=? 0x20))
  || (c =? 0x85) || (c =? 0xA0) || (c =? 0x1680)
  || ((0x2000 <=? c) && (c <=? 0x200A))
  || (c =? 0x2028) || (c =? 0x2029) || (c =? 0x202F) || (c =? 0x205F)
  || (c =? 0x3000).

Fixpoint lstrip (s : str) : str :=
  match s with
  | c :: r => if isspace c then lstrip r else s
  | [] => []
  end.

Definition rstrip (s : str) : str := rev (lstrip (rev s)).

(** [s.strip()] with no argument. *)
Definition strip (s : str) : str := rstrip (lstrip s).

(** Where a slice bound [i] falls in a sequence of length [len]: a
    negative bound counts from the end, and both are clamped. *)
Definition slice_index (len i : Z) : Z :=
  if (i <? 0)%Z then Z.max (len + i) 0 else Z.min i len.

(** [l[:i]] *)
Definition slice_to {A} (i : Z) (l : list A) : list A :=
  firstn (Z.to_nat (slice_index (Z.of_nat (length l)) i)) l.

(** [l[i:]] *)
Definition slice_from {A} (i : Z) (l : list A) : list A :=
  skipn (Z.to_nat (slice_index (Z.of_nat (length l)) i)) l.

(** [sep.join(parts)]. *)
Fixpoint join (sep : str) (parts : list str) : str :=
  match parts with
  | [] => []
  | [p] => p
  | p :: rest => p ++ sep ++ join sep rest
  end.

(** ASCII case folding of [str.lower]; the code points outside ASCII,
    none of which lowers to a string containing an ASCII letter or a
    full stop of the two suffixes tested, are left as they are. *)
Definition lower_cp (c : N) : N :=
  if (0x41 <=? c) && (c <=? 0x5A) then c + 0x20 else c.

Definition lower (s : str) : str := map lower_cp s.

Fixpoint startswith (p s : str) : bool :=
  match p, s with
  | [], _ => true
  | a :: p', b :: s' => (a =? b) && startswith p' s'
  | _ :: _, [] => false
  end.

Definition endswith (s suffix : str) : bool :=
  startswith (rev suffix) (rev s).

End PyStr.
Export PyStr.

(** ** UTF-8 decoding ([bytes.decode("utf-8", errors=...)]) *)

Module Utf8.

Inductive errors := Strict | Ignore | Replace.

(** What the decoder meets: a decoded code point, or an undecodable
    range of bytes handed to the error handler. *)
Inductive item := Char (c : N) | Undecodable.

Definition is_cont (b : byte) : bool :=
  let n := Byte.to_N b in (0x80 <=? n) && (n <? 0xC0).

Definition cp2 (b1 b2 : byte) : N :=
  N.lor (N.shiftl (N.land (Byte.to_N b1) 0x1F) 6) (N.land (Byte.to_N b2) 0x3F).

Definition cp3 (b1 b2 b3 : byte) : N :=
  N.lor (N.shiftl (N.land (Byte.to_N b1) 0x0F) 12)
    (N.lor (N.shiftl (N.land (Byte.to_N b2) 0x3F) 6)
           (N.land (Byte.to_N b3) 0x3F)).

Definition cp4 (b1 b2 b3 b4 : byte) : N :=
  N.lor (N.shiftl (N.land (Byte.to_N b1) 0x07) 18)
    (N.lor (N.shiftl (N.land (Byte.to_N b2) 0x3F) 12)
       (N.lor (N.shiftl (N.land (Byte.to_N b3) 0x3F) 6)
              (N.land (Byte.to_N b4) 0x3F))).

(** Second byte of a three-byte form: a continuation byte that makes
    neither an overlong form (lead E0) nor a surrogate (lead ED). *)
Definition ok2_of3 (b1 b2 : byte) : bool :=
  is_cont b2 &&
  negb (if Byte.to_N b2 <? 0xA0 then Byte.to_N b1 =? 0xE0
        else Byte.to_N b1 =? 0xED).

(** Second byte of a four-byte form: neither overlong (lead F0) nor
    above U+10FFFF (lead F4). *)
Definition ok2_of4 (b1 b2 : byte) : bool :=
  is_cont b2 &&
  negb (if Byte.to_N b2 <? 0x90 then Byte.to_N b1 =? 0xF0
        else Byte.to_N b1 =? 0xF4).

(** The decoder loop.  An invalid start byte is an undecodable range of
    one byte; an invalid continuation byte ends the range before it and
    decoding resumes at that byte; a sequence cut by the end of the data
    is one range up to the end. *)
Fixpoint scan (bs : bytes) : list item :=
  match bs with
  | [] => []
  | b1 :: r1 =>
    let ch := Byte.to_N b1 in
    if ch <? 0x80 then Char ch :: scan r1
    else if ch <? 0xC2 then Undecodable :: scan r1
    else if ch <? 0xE0 then
      match r1 with
      | [] => [Undecodable]
      | b2 :: r2 =>
        if is_cont b2 then Char (cp2 b1 b2) :: scan r2
        else Undecodable :: scan r1
      end
    else if ch <? 0xF0 then
      match r1 with
      | [] => [Undecodable]
      | b2 :: r2 =>
        if ok2_of3 b1 b2 then
          match r2 with
          | [] => [Undecodable]
          | b3 :: r3 =>
            if is_cont b3 then Char (cp3 b1 b2 b3) :: scan r3
            else Undecodable :: scan r2
          end
        else Undecodable :: scan r1
      end
    else if ch <? 0xF5 then
      match r1 with
      | [] => [Undecodable]
      | b2 :: r2 =>
        if ok2_of4 b1 b2 then
          match r2 with
          | [] => [Undecodable]
          | b3 :: r3 =>
            if is_cont b3 then
              match r3 with
              | [] => [Undecodable]
              | b4 :: r4 =>
                if is_cont b4 then Char (cp4 b1 b2 b3 b4) :: scan r4
                else Undecodable :: scan r3
              end
            else Undecodable :: scan r2
          end
        else Undecodable :: scan r1
      end
    else Undecodable :: scan r1
  end.

Definition is_char (i : item) : bool :=
  match i with Char _ => true | Undecodable => false end.

Definition chars (e : errors) (its : list item) : str :=
  flat_map (fun i => match i, e with
                     | Char c, _ => [c]
                     | Undecodable, Replace => [0xFFFD]
                     | Undecodable, _ => []
                     end) its.

(** [bs.decode("utf-8", errors=e)]: [None] stands for the
    [UnicodeDecodeError] of the strict handler. *)
Definition decode (e : errors) (bs : bytes) : option str :=
  let its := scan bs in
  match e with
  | Strict => if forallb is_char its then Some (chars Strict its) else None
  | _ => Some (chars e its)
  end.

End Utf8.

(** A string literal of the source, as a [str]: the literal's UTF-8
    bytes decoded. *)
Definition lit (s : string) : str :=
  Utf8.chars Utf8.Ignore (Utf8.scan (list_byte_of_string s)).

Arguments lit : simpl never.

Definition dquote : str := [0x22].
Definition triple_quote : str := dquote ++ dquote ++ dquote.
Definition nl : str := [0x0A].

(** ** Effects of the script: session state, screen, model calls *)

Module Script.

(** One entry of [st.session_state.messages]. *)
Record Turn := { user : str; assistant : str }.

(** The dictionary [agentic_plan_and_execute] returns. *)
Record AgentRun := { agentic_explanation : str }.

(** One entry of the structured request: [{"role": ..., "parts": [...]}]. *)
Record content := { role : str; parts : list str }.

(** What [model.generate_content] is given. *)
Inductive payload :=
| Prompt (text : str)
| Contents (contents : list content).

Inductive exn :=
| GatewayError        (* the model call, or reading its text, raised *)
| StopException       (* [st.stop()] *)
| UnicodeDecodeError
| PdfReadError.

Inductive result (A : Type) :=
| Ok (a : A)
| Raise (e : exn).
Arguments Ok {A} a.
Arguments Raise {A} e.

Inductive element :=
| chat_message (author : str) (markdown : str)
| warning (text : str).

Record world := {
  messages : list Turn;
  agent_runs : list AgentRun;
  screen : list element;
  calls : list payload
}.

Definition M (A : Type) : Type := world -> result A * world.

Definition ret {A} (a : A) : M A := fun w => (Ok a, w).

Definition bind {A B} (c : M A) (k : A -> M B) : M B :=
  fun w => match c w with
           | (Ok a, w') => k a w'
           | (Raise e, w') => (Raise e, w')
           end.

Definition raise {A} (e : exn) : M A := fun w => (Raise e, w).

Definition lift {A} (r : result A) : M A := fun w => (r, w).

Declare Scope script_scope.
Delimit Scope script_scope with script.
Notation "x <- c ;; k" := (bind c (fun x => k))
  (at level 61, c at next level, right associativity) : script_scope.
Notation "c ;; k" := (bind c (fun _ => k))
  (at level 61, right associativity) : script_scope.
Open Scope script_scope.

Definition get_messages : M (list Turn) := fun w => (Ok (messages w), w).

Definition messages_append (t : Turn) : M unit := fun w =>
  (Ok tt, {| messages := messages w ++ [t]; agent_runs := agent_runs w;
             screen := screen w; calls := calls w |}).

Definition agent_runs_append (r : AgentRun) : M unit := fun w =>
  (Ok tt, {| messages := messages w; agent_runs := agent_runs w ++ [r];
             screen := screen w; calls := calls w |}).

Definition show (e : element) : M unit := fun w =>
  (Ok tt, {| messages := messages w; agent_runs := agent_runs w;
             screen := screen w ++ [e]; calls := calls w |}).

Definition st_stop : M unit := raise StopException.

(** An uploaded file. *)
Record file := { name : str; data : bytes }.

(** [genai.GenerativeModel], configured with the key. *)
Record GenerativeModel := { model_api_key : str; model_name : str }.

Definition init_gemini (api_key : str) : GenerativeModel :=
  {| model_api_key := api_key; model_name := lit "models/gemini-flash-latest" |}.

Section Program.

(** The hosted model: the text of the response, or [None] when the call
    (or reading the response's text) raises. *)
Variable gateway : GenerativeModel -> payload -> option str.

(** PyPDF2: whether it can be imported, and what [PdfReader] finds in a
    file: the text of each page ([None] for a page without text), or
    [None] when reading raises. *)
Variable pypdf2_installed : bool.
Variable pdf_pages : bytes -> option (list (option str)).

(** [model.generate_content(p).text] *)
Definition generate_content (model : GenerativeModel) (p : payload) : M str :=
  fun w =>
    let w' := {| messages := messages w; agent_runs := agent_runs w;
                 screen := screen w; calls := calls w ++ [p] |} in
    match gateway model p with
    | Some text => (Ok text, w')
    | None => (Raise GatewayError, w')
    end.

(** *** File and document handling *)

Definition read_txt_file (f : file) : result str :=
  match Utf8.decode Utf8.Ignore (data f) with
  | Some s => Ok s
  | None => Raise UnicodeDecodeError
  end.

(** [x or ""] *)
Definition or_empty (x : option str) : str :=
  match x with
  | Some t => if truthy t then t else []
  | None => []
  end.

Definition read_pdf_file (f : file) : result str :=
  if negb pypdf2_installed then
    Ok (lit "PyPDF2 is not installed. Please install it with `pip install PyPDF2`.")
  else
    match pdf_pages (data f) with
    | None => Raise PdfReadError
    | Some pages =>
      let text := fold_left (fun text page => text ++ [or_empty page]) pages [] in
      Ok (join nl text)
    end.

(** The body of the loop of [get_uploaded_text], for one file. *)
Definition extract_one (f : file) : result str :=
  if endswith (lower (name f)) (lit ".txt") then read_txt_file f
  else if endswith (lower (name f)) (lit ".pdf") then read_pdf_file f
  else Ok (lit "Unsupported file type: " ++ name f).

Fixpoint extract_loop (files : list file) (full_text : list str)
  : result (list str) :=
  match files with
  | [] => Ok full_text
  | f :: rest =>
    match extract_one f with
    | Ok t => extract_loop rest (full_text ++ [t])
    | Raise e => Raise e
    end
  end.

Definition get_uploaded_text (files : list file) : result str :=
  match files with
  | [] => Ok []
  | _ =>
    match extract_loop files [] with
    | Ok full_text => Ok (join (nl ++ nl) full_text)
    | Raise e => Raise e
    end
  end.

(** *** The agent's tools *)

Definition system_prompt (language role : str) : str :=
  lit "
You are GenieTalk, an AI agentic assistant.

Role: "
  ++ role
  ++ lit "

You must:
- Be helpful and concise.
- Adapt your tone to the role (e.g., more emotional for Emotional Support, technical for Coding Help).
- Always respond in this language: "
  ++ language
  ++ lit ".
".

(** The request [tool_general_chat] builds in [contents]. *)
Definition general_chat_contents (user_input language role : str)
    (history : list Turn) : list content :=
  let contents := [] in
  let contents :=
    contents ++ [{| role := lit "user"; parts := [system_prompt language role] |}] in
  let contents :=
    fold_left
      (fun contents msg =>
         (contents ++ [{| role := lit "user"; parts := [user msg] |}])
           ++ [{| role := lit "model"; parts := [assistant msg] |}])
      history contents in
  contents ++ [{| role := lit "user"; parts := [user_input] |}].

Definition tool_general_chat (model : GenerativeModel)
    (user_input language role : str) (history : list Turn) : M str :=
  response <- generate_content model
                (Contents (general_chat_contents user_input language role history)) ;;
  ret (strip response).

Definition document_qa_prompt (question doc_text language : str) : str :=
  lit "
You are a document QA assistant.

You receive:
- A question from the user
- Full extracted text from one or more documents

1. First, briefly state what you understood about the question.
2. Then answer using ONLY the document text when possible.
3. If something is not in the document, clearly say it.

Answer in this language: "
  ++ language
  ++ lit ".

User question:
"
  ++ question
  ++ lit "

Document text:
"
  ++ triple_quote
  ++ slice_to 25000 doc_text
  ++ triple_quote
  ++ lit "  # (truncated if very long)
".

Definition tool_document_qa (model : GenerativeModel)
    (question doc_text language : str) : M str :=
  if negb (truthy (strip doc_text)) then
    ret (lit "(I could not find any document text. Please upload a PDF or TXT first.)")
  else
    response <- generate_content model
                  (Prompt (document_qa_prompt question doc_text language)) ;;
    ret (strip response).

Definition translate_prompt (text target_language : str) : str :=
  lit "
You are a professional translator.

Translate the following text into: "
  ++ target_language
  ++ lit ".

Keep the original meaning, tone, and style.

Text:
"
  ++ triple_quote
  ++ text
  ++ triple_quote
  ++ lit "
".

Definition tool_translate (model : GenerativeModel)
    (text target_language : str) : M str :=
  response <- generate_content model (Prompt (translate_prompt text target_language)) ;;
  ret (strip response).

Definition resume_review_prompt (resume_text language : str) : str :=
  lit "
You are a resume and career advisor.

You receive a resume text and must:
1. Summarize the candidate's profile.
2. Point out 5–10 very specific improvements (content + formatting).
3. Suggest 3 tailored role titles the candidate can target.
4. Suggest 3–5 strong bullet points they can add.

Answer in this language: "
  ++ language
  ++ lit ".

Resume text:
"
  ++ triple_quote
  ++ slice_to 20000 resume_text
  ++ triple_quote
  ++ lit "
".

Definition tool_resume_review (model : GenerativeModel)
    (resume_text language : str) : M str :=
  if negb (truthy (strip resume_text)) then
    ret (lit "Please upload your resume as PDF/TXT or paste it so I can review it.")
  else
    response <- generate_content model
                  (Prompt (resume_review_prompt resume_text language)) ;;
    ret (strip response).

Definition coding_help_prompt (question language : str) : str :=
  lit "
You are a senior software engineer and coding mentor.

User question:
"
  ++ question
  ++ lit "

You must:
- Explain step by step, but not too long.
- Show minimal but correct code examples.
- Add short comments.
- Answer in language: "
  ++ language
  ++ lit ".
".

Definition tool_coding_help (model : GenerativeModel)
    (question language : str) : M str :=
  response <- generate_content model (Prompt (coding_help_prompt question language)) ;;
  ret (strip response).

Definition emotional_support_prompt (message language : str) : str :=
  lit "
You are a supportive, empathetic friend.

User message:
"
  ++ message
  ++ lit "

You must:
- Validate their feelings.
- Avoid giving medical or clinical diagnosis.
- Offer simple, kind suggestions and coping strategies.
- Encourage them to reach out to trusted people or professionals if needed.
- Answer in language: "
  ++ language
  ++ lit ".
".

Definition tool_emotional_support (model : GenerativeModel)
    (message language : str) : M str :=
  response <- generate_content model
                (Prompt (emotional_support_prompt message language)) ;;
  ret (strip response).

(** *** Agentic mode: plan and act in one call *)

Definition available_tools_description : str :=
  lit "
You have these internal skills/tools:

1. general_chat: For broad reasoning, explanation, brainstorming.
2. coding_help: For code, debugging, writing functions, etc.
3. resume_review: For CV/resume critique and job guidance.
4. emotional_support: For empathy and motivation (not medical).
5. document_qa: For answering questions about uploaded PDFs/TXTs.
6. translate: For translating text into user's target language.

You cannot actually call external APIs here; you must "
  ++ dquote
  ++ lit "simulate"
  ++ dquote
  ++ lit " tool use by clearly reasoning.
".

(** One step of the loop over [chat_history[-6:]]. *)
Definition history_line (turn : Turn) : str :=
  lit "User: "
  ++ user turn
  ++ lit "
Assistant: "
  ++ assistant turn
  ++ lit "
".

Definition history_text (chat_history : list Turn) : str :=
  let history_text := [] in
  match chat_history with
  | [] => history_text
  | _ =>
    let history_text := lit "
Previous conversation:
" in
    fold_left (fun history_text turn => history_text ++ history_line turn)
              (slice_from (-6) chat_history) history_text
  end.

Definition doc_hint (doc_text : str) : str :=
  if truthy (strip doc_text) then
    lit "

The user also provided document text. You can treat it as context when needed:
"
    ++ triple_quote
    ++ slice_to 8000 doc_text
    ++ triple_quote
  else [].

Definition agentic_prompt (goal role language doc_text : str)
    (chat_history : list Turn) : str :=
  lit "
You are GenieTalk, an AGENTIC AI assistant.

User goal:
"
  ++ triple_quote
  ++ goal
  ++ triple_quote
  ++ lit "

Role: "
  ++ role
  ++ lit "
Target answer language: "
  ++ language
  ++ lit "

"
  ++ available_tools_description
  ++ lit "

Your job:
1. Briefly restate the goal.
2. Create a numbered plan (3–6 steps).
3. For each step, say which tool/skill you are conceptually using (from the list).
4. Then actually do the reasoning/work for those steps.
5. Finally, give a clean FINAL ANSWER section that the user can read directly.

Use clear headings:
- Goal
- Plan
- Step-by-step Thinking
- Final Answer

Be practical and focused. If documents are relevant, you may use them conceptually.

"
  ++ history_text chat_history
  ++ lit "
"
  ++ doc_hint doc_text
  ++ lit "
".

Definition agentic_plan_and_execute (model : GenerativeModel)
    (goal role language doc_text : str) (chat_history : list Turn)
  : M AgentRun :=
  response <- generate_content model
                (Prompt (agentic_prompt goal role language doc_text chat_history)) ;;
  let text := strip response in
  ret {| agentic_explanation := text |}.

(** *** The page: sidebar values and the handling of one input *)

(** [get_uploaded_text(uploaded_files) if uploaded_files else ""] *)
Definition doc_text_context (uploaded_files : list file) : result str :=
  match uploaded_files with
  | [] => Ok []
  | _ => get_uploaded_text uploaded_files
  end.

(** Truthiness of what [st.chat_input] returns: [None] without a
    submission. *)
Definition submitted (user_input : option str) : bool :=
  match user_input with
  | Some s => truthy s
  | None => false
  end.

(** The options of the role selector of the sidebar. *)
Definition role_options : list str :=
  [lit "General Assistant";
   lit "Coding Help";
   lit "Resume Review";
   lit "Emotional Support";
   lit "Document QA";
   lit "Translator"].

(** The routing on the role in chat mode: the reply of the chosen tool. *)
Definition chat_route (model : GenerativeModel)
    (role user_input reply_language doc_text_context : str) : M str :=
  if str_eqb role (lit "General Assistant") then
    history <- get_messages ;;
    tool_general_chat model user_input reply_language role history
  else if str_eqb role (lit "Coding Help") then
    tool_coding_help model user_input reply_language
  else if str_eqb role (lit "Resume Review") then
    let resume_text :=
      if truthy doc_text_context then doc_text_context else user_input in
    tool_resume_review model resume_text reply_language
  else if str_eqb role (lit "Emotional Support") then
    tool_emotional_support model user_input reply_language
  else if str_eqb role (lit "Document QA") then
    tool_document_qa model user_input doc_text_context reply_language
  else if str_eqb role (lit "Translator") then
    tool_translate model user_input reply_language
  else
    history <- get_messages ;;
    tool_general_chat model user_input reply_language role history.

Definition handle_input (api_key main_mode role reply_language
    doc_text_context user_input : str) : M unit :=
  let model := init_gemini api_key in
  if str_eqb main_mode (lit "Chat") then
    show (chat_message (lit "user") user_input) ;;
    assistant_reply <-
      chat_route model role user_input reply_language doc_text_context ;;
    show (chat_message (lit "assistant") assistant_reply) ;;
    messages_append {| user := user_input; assistant := assistant_reply |}
  else
    show (chat_message (lit "user") (lit "**Goal / Task:** " ++ user_input)) ;;
    chat_history <- get_messages ;;
    agent_run <-
      agentic_plan_and_execute model user_input role reply_language
        doc_text_context chat_history ;;
    let agent_text := agentic_explanation agent_run in
    show (chat_message (lit "assistant") agent_text) ;;
    messages_append {| user := user_input; assistant := agent_text |} ;;
    agent_runs_append agent_run.

(** The script from [st.chat_input] on, for the values the widgets hold
    in this run. *)
Definition turn_controller (api_key main_mode role reply_language
    doc_text_context : str) (user_input : option str) : M unit :=
  (if submitted user_input && negb (truthy api_key) then
     show (warning (lit "Please enter your Gemini API key in the sidebar first.")) ;;
     st_stop
   else ret tt) ;;
  match user_input with
  | Some text =>
    if truthy text && truthy api_key then
      handle_input api_key main_mode role reply_language doc_text_context text
    else ret tt
  | None => ret tt
  end.

End Program.

End Script.

(** ** The whole page: sidebar, redisplay of the chat, one input *)

Module Page.
Import Script.

(** What the widgets hold in one run of the script. *)
Record widgets := {
  key_typed : str;                 (* the API key text input *)
  mode_choice : str;               (* the mode radio *)
  role_choice : str;               (* the role selector *)
  language_choice : str;           (* the language selector *)
  language_typed : str;            (* the text input shown for "Other" *)
  files : list file;               (* the file uploader *)
  clear_clicked : bool;            (* the "Clear Chat" button *)
  download_clicked : bool;         (* the "Download Chat as .txt" button *)
  chat_typed : option str          (* the chat input *)
}.

(** Elements the sidebar shows besides its widgets. *)
Inductive sidebar_element :=
| success (text : str)
| download_button (label data file_name mime : str).

(** The text offered for download: one block per turn, joined by
    newlines. *)
Definition export_str (messages : list Turn) : str :=
  let all_text :=
    fold_left
      (fun all_text m =>
         all_text ++ [lit "User: " ++ user m ++ lit "
Assistant: " ++ assistant m ++ lit "
"])
      messages [] in
  join nl all_text.

(** The language of the replies: the selector, or what is typed when the
    selector is on "Other". *)
Definition reply_language (wd : widgets) : str :=
  if str_eqb (language_choice wd) (lit "Other") then language_typed wd
  else language_choice wd.

(** The session state after the "Clear Chat" branch. *)
Definition clear_chat (w : world) : world :=
  {| messages := []; agent_runs := []; screen := screen w; calls := calls w |}.

(** The loop that shows the stored chat again. *)
Fixpoint display_loop (ms : list Turn) : M unit :=
  match ms with
  | [] => ret tt
  | m :: rest =>
    show (chat_message (lit "user") (user m)) ;;
    show (chat_message (lit "assistant") (assistant m)) ;;
    display_loop rest
  end.

Definition display_chat : M unit :=
  ms <- get_messages ;; display_loop ms.

Section Run.

Variable gateway : GenerativeModel -> payload -> option str.
Variable pypdf2_installed : bool.
Variable pdf_pages : bytes -> option (list (option str)).

(** The sidebar: the document context of this run, then the two buttons.
    It returns the document context, the session state it leaves and the
    elements it showed. *)
Definition sidebar (wd : widgets) (w : world)
  : result str * world * list sidebar_element :=
  match doc_text_context pypdf2_installed pdf_pages (files wd) with
  | Raise e => (Raise e, w, [])
  | Ok doc =>
    let '(w, shown) :=
      if clear_clicked wd
      then (clear_chat w, [success (lit "Chat history cleared!")])
      else (w, []) in
    let shown :=
      if download_clicked wd
      then shown ++ [download_button (lit "Click to download")
                       (export_str (messages w))
                       (lit "genieTalk_chatlog.txt") (lit "text/plain")]
      else shown in
    (Ok doc, w, shown)
  end.

(** One run of the script. *)
Definition page (wd : widgets) (w : world)
  : (result unit * world) * list sidebar_element :=
  match sidebar wd w with
  | (Raise e, w, shown) => ((Raise e, w), shown)
  | (Ok doc, w, shown) =>
    ((display_chat ;;
      turn_controller gateway (key_typed wd) (mode_choice wd) (role_choice wd)
        (reply_language wd) doc (chat_typed wd)) w,
     shown)
  end.

End Run.

End Page.

(** ** The specification's reading of single operations *)

Module Spec.
Import Script.

(** Text decoding as the specification words it: undecodable bytes are
    replaced (by U+FFFD), the [errors="replace"] handler. *)
Definition read_txt_replacing (f : file) : result str :=
  match Utf8.decode Utf8.Replace (data f) with
  | Some s => Ok s
  | None => Raise UnicodeDecodeError
  end.

End Spec.

(** * Properties *)

(** ** Strings and slices *)

Module PyStrFacts.

Lemma str_eqb_eq a b : str_eqb a b = true <-> a = b.
Proof. unfold str_eqb; destruct (list_eq_dec N.eq_dec a b); split; congruence. Qed.

Lemma str_eqb_neq a b : str_eqb a b = false <-> a <> b.
Proof. unfold str_eqb; destruct (list_eq_dec N.eq_dec a b); split; congruence. Qed.

Lemma str_eqb_refl a : str_eqb a a = true.
Proof. now apply str_eqb_eq. Qed.

Lemma lstrip_spaces s : forallb isspace s = true -> lstrip s = [].
Proof.
  induction s as [|c r IH]; simpl; [reflexivity|].
  intros H; apply andb_prop in H as [Hc Hr]; rewrite Hc; auto.
Qed.

Lemma lstrip_nil s : lstrip s = [] -> forallb isspace s = true.
Proof.
  induction s as [|c r IH]; simpl; [reflexivity|].
  destruct (isspace c); simpl; [exact IH | discriminate].
Qed.

Lemma forallb_rev {A} (f : A -> bool) l : forallb f (rev l) = forallb f l.
Proof.
  induction l as [|a l IH]; simpl; [reflexivity|].
  rewrite forallb_app, IH; simpl. rewrite andb_true_r. apply andb_comm.
Qed.

(** What [lstrip] leaves is empty or starts with a character that is
    not white space. *)
Lemma lstrip_head s :
  match lstrip s with
  | [] => True
  | c :: _ => isspace c = false
  end.
Proof.
  induction s as [|c r IH]; simpl; [exact I|].
  destruct (isspace c) eqn:E; [exact IH | exact E].
Qed.

(** [not s.strip()] holds exactly of the strings made of white space. *)
Lemma strip_blank s : strip s = [] <-> forallb isspace s = true.
Proof.
  unfold strip, rstrip; split; intros H.
  - apply lstrip_nil.
    assert (Hl : lstrip (rev (lstrip s)) = []).
    { destruct (lstrip (rev (lstrip s))) as [|x xs] eqn:E; [reflexivity|].
      simpl in H. now destruct (rev xs). }
    apply lstrip_nil in Hl. rewrite forallb_rev in Hl.
    pose proof (lstrip_head s) as Hh.
    destruct (lstrip s) as [|c r]; [reflexivity|].
    simpl in Hl. rewrite Hh in Hl. discriminate.
  - rewrite (lstrip_spaces s H). reflexivity.
Qed.

Lemma truthy_strip s : truthy (strip s) = negb (forallb isspace s).
Proof.
  destruct (forallb isspace s) eqn:E.
  - apply strip_blank in E. now rewrite E.
  - destruct (strip s) as [|c r] eqn:Es; [|reflexivity].
    apply strip_blank in Es. congruence.
Qed.

Lemma truthy_false s : truthy s = false <-> s = [].
Proof. destruct s; simpl; split; congruence. Qed.

(** [l[:n]] with [n >= 0] is the prefix of length at most [n]. *)
Lemma slice_to_firstn {A} (n : Z) (l : list A) :
  (0 <= n)%Z -> slice_to n l = firstn (Z.to_nat n) l.
Proof.
  intros Hn. unfold slice_to, slice_index.
  destruct (n <? 0)%Z eqn:E; [apply Z.ltb_lt in E; lia|].
  destruct (Z.le_gt_cases n (Z.of_nat (length l))) as [Hle|Hgt].
  - now rewrite Z.min_l.
  - rewrite Z.min_r by lia. rewrite Nat2Z.id.
    rewrite firstn_all. symmetry. apply firstn_all2. lia.
Qed.

Lemma slice_to_length {A} (n : Z) (l : list A) :
  (0 <= n)%Z ->
  Z.of_nat (length (slice_to n l)) = Z.min n (Z.of_nat (length l)).
Proof.
  intros Hn. rewrite slice_to_firstn by assumption.
  rewrite length_firstn. lia.
Qed.

(** [l[-k:]] with [k > 0] drops all but the last [k] elements. *)
Lemma slice_from_last {A} (k : Z) (l : list A) :
  (0 < k)%Z -> slice_from (- k) l = skipn (length l - Z.to_nat k) l.
Proof.
  intros Hk. unfold slice_from, slice_index.
  destruct (- k <? 0)%Z eqn:E; [|apply Z.ltb_ge in E; lia].
  f_equal. lia.
Qed.

Lemma slice_from_last_length {A} (k : Z) (l : list A) :
  (0 < k)%Z ->
  length (slice_from (- k) l) = Nat.min (Z.to_nat k) (length l).
Proof.
  intros Hk. rewrite slice_from_last by assumption.
  rewrite length_skipn. lia.
Qed.

(** A loop that appends one rendered piece per element builds the
    concatenation of the pieces. *)
Lemma fold_left_append {A B} (f : A -> list B) (l : list A) (acc : list B) :
  fold_left (fun acc x => acc ++ f x) l acc = acc ++ concat (map f l).
Proof.
  revert acc; induction l as [|x l IH]; intros acc; simpl.
  - now rewrite app_nil_r.
  - rewrite IH. now rewrite <- app_assoc.
Qed.

Lemma fold_left_snoc {A B} (f : A -> B) (l : list A) (acc : list B) :
  fold_left (fun acc x => acc ++ [f x]) l acc = acc ++ map f l.
Proof.
  revert acc; induction l as [|x l IH]; intros acc; simpl.
  - now rewrite app_nil_r.
  - rewrite IH. now rewrite <- app_assoc.
Qed.

End PyStrFacts.
Import PyStrFacts.

(** ** The UTF-8 decoder *)

Module Utf8Facts.
Import Utf8.
Local Open Scope nat_scope.

(** Number of undecodable ranges the decoder met. *)
Definition undecodable (its : list item) : nat :=
  length (filter (fun i => negb (is_char i)) its).

Lemma chars_strict_ignore its : chars Strict its = chars Ignore its.
Proof. reflexivity. Qed.

Lemma chars_ignore_length its :
  length (chars Ignore its) + undecodable its = length its.
Proof.
  unfold undecodable.
  induction its as [|[c|] its IH]; simpl in *; lia.
Qed.

Lemma chars_replace_length its :
  length (chars Replace its) = length (chars Ignore its) + undecodable its.
Proof.
  unfold undecodable.
  induction its as [|[c|] its IH]; simpl in *; lia.
Qed.

(** The decoder makes at most one item per byte. *)
Lemma scan_length_upto n :
  forall bs, length bs <= n -> length (scan bs) <= length bs.
Proof.
  induction n as [|n IH]; intros bs Hn.
  - destruct bs; simpl in *; lia.
  - destruct bs as [|b1 r1]; [simpl; lia|].
    simpl scan.
    repeat match goal with
           | |- context [if ?c then _ else _] => destruct c
           | |- context [match ?l with [] => _ | _ :: _ => _ end] =>
             is_var l; destruct l
           end;
      try match goal with
          | |- context [scan ?r] => pose proof (IH r)
          end;
      simpl in *; lia.
Qed.

Lemma scan_length bs : length (scan bs) <= length bs.
Proof. apply (scan_length_upto (length bs)); lia. Qed.

Lemma decode_ignore_total bs :
  decode Ignore bs = Some (chars Ignore (scan bs)).
Proof. reflexivity. Qed.

(** Where strict decoding succeeds, ignoring errors gives the same text. *)
Lemma decode_strict_ignore bs t :
  decode Strict bs = Some t -> decode Ignore bs = Some t.
Proof.
  unfold decode. destruct (forallb is_char (scan bs)); [|discriminate].
  now rewrite chars_strict_ignore.
Qed.

(** Bytes below 0x80 decode to themselves. *)
Lemma scan_ascii bs :
  Forall (fun b => (Byte.to_N b < 0x80)%N) bs ->
  scan bs = map (fun b => Char (Byte.to_N b)) bs.
Proof.
  induction 1 as [|b r Hb _ IH]; [reflexivity|].
  simpl. apply N.ltb_lt in Hb. now rewrite Hb, IH.
Qed.

End Utf8Facts.

(** ** Text extraction *)

Module ExtractionFacts.
Import Script Utf8 Utf8Facts.
Local Open Scope nat_scope.

Section Extraction.

Variable pypdf2_installed : bool.
Variable pdf_pages : bytes -> option (list (option str)).

Local Abbreviation extract_one :=
  (Script.extract_one pypdf2_installed pdf_pages).
Local Abbreviation extract_loop :=
  (Script.extract_loop pypdf2_installed pdf_pages).
Local Abbreviation get_uploaded_text :=
  (Script.get_uploaded_text pypdf2_installed pdf_pages).

Lemma read_txt_file_ok f : read_txt_file f = Ok (chars Ignore (scan (data f))).
Proof. reflexivity. Qed.

Lemma extract_one_txt f :
  endswith (lower (name f)) (lit ".txt") = true ->
  extract_one f = read_txt_file f.
Proof. intros H. unfold Script.extract_one. now rewrite H. Qed.

Lemma extract_one_unsupported f :
  endswith (lower (name f)) (lit ".txt") = false ->
  endswith (lower (name f)) (lit ".pdf") = false ->
  extract_one f = Ok (lit "Unsupported file type: " ++ name f).
Proof. intros H1 H2. unfold Script.extract_one. now rewrite H1, H2. Qed.

(** With PyPDF2 at hand, the text of a PDF is the texts of its pages
    joined by newlines, a page without text counting as an empty line. *)
Lemma read_pdf_file_pages f pages :
  pypdf2_installed = true ->
  pdf_pages (data f) = Some pages ->
  Script.read_pdf_file pypdf2_installed pdf_pages f
  = Ok (join nl (map or_empty pages)).
Proof.
  intros Hi Hp. unfold Script.read_pdf_file. rewrite Hi, Hp. simpl negb.
  cbv iota. now rewrite fold_left_snoc.
Qed.

(** The loop appends one text per file, in order, as long as no file
    raises. *)
Lemma extract_loop_ok files : forall texts full_text,
  Forall2 (fun f t => extract_one f = Ok t) files texts ->
  extract_loop files full_text = Ok (full_text ++ texts).
Proof.
  induction files as [|f files IH]; intros texts acc H; inversion H; subst.
  - simpl. now rewrite app_nil_r.
  - simpl. match goal with E : extract_one f = _ |- _ => rewrite E end.
    erewrite IH by eassumption. now rewrite <- app_assoc.
Qed.

(** The first file that raises ends the extraction with its exception. *)
Lemma extract_loop_raise files1 f files2 texts e : forall full_text,
  Forall2 (fun f t => extract_one f = Ok t) files1 texts ->
  extract_one f = Raise e ->
  extract_loop (files1 ++ f :: files2) full_text = Raise e.
Proof.
  revert texts; induction files1 as [|g files1 IH]; intros texts acc H He;
    inversion H; subst; simpl.
  - now rewrite He.
  - match goal with E : extract_one g = _ |- _ => rewrite E end.
    eapply IH; eassumption.
Qed.

(** C8, as amended: for every byte content of a file whose name ends,
    whatever the case of its letters, in ".txt", extraction never raises
    and returns the UTF-8 decoding in which undecodable bytes are dropped,
    not replaced: the text is the strict decoding whenever the bytes are
    valid UTF-8, it is shorter than the decoding with replacement
    characters by one code point per undecodable range, and it has at most
    one code point per byte. *)
Theorem read_txt_file_ignores_undecodable (f : file) :
  endswith (lower (name f)) (lit ".txt") = true ->
  exists s,
    extract_one f = Ok s /\
    read_txt_file f = Ok s /\
    decode Ignore (data f) = Some s /\
    (forall t, decode Strict (data f) = Some t -> s = t) /\
    (forall r, decode Replace (data f) = Some r ->
               length r = length s + undecodable (scan (data f))) /\
    length s <= length (data f).
Proof.
  intros Htxt. exists (chars Ignore (scan (data f))).
  rewrite (extract_one_txt f Htxt), read_txt_file_ok.
  repeat split.
  - intros t Ht. apply decode_strict_ignore in Ht.
    rewrite decode_ignore_total in Ht. congruence.
  - intros r Hr. unfold decode in Hr. injection Hr as <-.
    apply chars_replace_length.
  - pose proof (chars_ignore_length (scan (data f))).
    pose proof (scan_length (data f)). lia.
Qed.

(** When every file is extracted, the texts of the files are joined with
    a blank line between them, in upload order; no file gives the empty
    string; a file whose suffix is neither ".txt" nor ".pdf" contributes
    the placeholder naming it and the other files are still extracted. *)
Theorem get_uploaded_text_joins (files : list file) (texts : list str) :
  Forall2 (fun f t => extract_one f = Ok t) files texts ->
  get_uploaded_text files = Ok (join (nl ++ nl) texts) /\
  get_uploaded_text [] = Ok [] /\
  Forall2 (fun f t =>
             endswith (lower (name f)) (lit ".txt") = false ->
             endswith (lower (name f)) (lit ".pdf") = false ->
             t = lit "Unsupported file type: " ++ name f) files texts.
Proof.
  intros H. split; [|split].
  - destruct files as [|f files].
    + inversion H; subst. reflexivity.
    + unfold Script.get_uploaded_text.
      now rewrite (extract_loop_ok _ texts [] H).
  - reflexivity.
  - induction H as [|f t files texts Hf _ IH]; constructor; [|exact IH].
    intros H1 H2. rewrite (extract_one_unsupported f H1 H2) in Hf.
    congruence.
Qed.

End Extraction.

Definition notes_txt : file :=
  {| name := lit "Notes.TXT"; data := [xff; x68; x69; xc3] |}.

Definition photo_png : file :=
  {| name := lit "photo.png"; data := [x89; x50; x4e; x47] |}.

Definition plain_txt : file :=
  {| name := lit "a.txt"; data := [x6f; x6b] |}.

(** C8, as stated, fails: the byte FF of [notes_txt] is dropped, where
    replacing would put U+FFFD. *)
Lemma read_txt_file_does_not_replace :
  ~ (forall f : file,
        endswith (lower (name f)) (lit ".txt") = true ->
        read_txt_file f = Spec.read_txt_replacing f).
Proof.
  intros H. specialize (H notes_txt eq_refl). vm_compute in H. discriminate.
Qed.

Lemma read_txt_file_ignores_undecodable_witness :
  exists s,
    Script.extract_one true (fun _ => None) notes_txt = Ok s /\
    read_txt_file notes_txt = Ok s /\
    decode Ignore (data notes_txt) = Some s /\
    (forall t, decode Strict (data notes_txt) = Some t -> s = t) /\
    (forall r, decode Replace (data notes_txt) = Some r ->
               length r = length s + undecodable (scan (data notes_txt))) /\
    length s <= length (data notes_txt).
Proof.
  apply (read_txt_file_ignores_undecodable true (fun _ => None) notes_txt).
  vm_compute. reflexivity.
Defined.

Lemma get_uploaded_text_joins_witness :
  Script.get_uploaded_text true (fun _ => None)
    [notes_txt; photo_png; plain_txt]
  = Ok (lit "hi

Unsupported file type: photo.png

ok").
Proof.
  refine (eq_trans
    (proj1 (get_uploaded_text_joins true (fun _ => None)
              [notes_txt; photo_png; plain_txt]
              [lit "hi"; lit "Unsupported file type: photo.png"; lit "ok"] _)) _).
  - repeat constructor.
  - vm_compute. reflexivity.
Defined.

End ExtractionFacts.

(** ** The prompts *)

Module PromptFacts.
Import Script.
Local Open Scope nat_scope.

(** The two entries a prior turn becomes in the structured request. *)
Definition turn_entries (msg : Turn) : list content :=
  [{| role := lit "user"; parts := [user msg] |};
   {| role := lit "model"; parts := [assistant msg] |}].

Lemma history_loop (history : list Turn) : forall contents,
  fold_left
    (fun contents msg =>
       (contents ++ [{| role := lit "user"; parts := [user msg] |}])
         ++ [{| role := lit "model"; parts := [assistant msg] |}])
    history contents
  = contents ++ flat_map turn_entries history.
Proof.
  induction history as [|msg history IH]; intros contents; simpl.
  - now rewrite app_nil_r.
  - rewrite IH. now rewrite <- !app_assoc.
Qed.

Lemma flat_map_pair_length {A B} (f : A -> list B) (l : list A) :
  (forall a, length (f a) = 2) -> length (flat_map f l) = 2 * length l.
Proof.
  intros Hf. induction l as [|a l IH]; simpl; [reflexivity|].
  rewrite length_app, Hf, IH. lia.
Qed.

Lemma lit_newline_assistant : lit "
Assistant: " = nl ++ lit "Assistant: ".
Proof. vm_compute. reflexivity. Qed.

Lemma lit_newline : lit "
" = nl.
Proof. vm_compute. reflexivity. Qed.

Lemma history_line_eq (turn : Turn) :
  history_line turn =
    lit "User: " ++ user turn ++ nl ++ lit "Assistant: " ++ assistant turn ++ nl.
Proof.
  unfold history_line. rewrite lit_newline_assistant, lit_newline.
  now rewrite <- !app_assoc.
Qed.

Section Prompts.

Variable gateway : GenerativeModel -> payload -> option str.

Local Abbreviation tool_general_chat := (Script.tool_general_chat gateway).
Local Abbreviation tool_document_qa := (Script.tool_document_qa gateway).
Local Abbreviation tool_resume_review := (Script.tool_resume_review gateway).
Local Abbreviation agentic_plan_and_execute :=
  (Script.agentic_plan_and_execute gateway).

(** Every tool that calls the model records exactly that call. *)
Lemma generate_content_calls model p w :
  calls (snd (generate_content gateway model p w)) = calls w ++ [p].
Proof. unfold generate_content. now destruct (gateway model p). Qed.

Lemma bind_generate_calls {A} model p (k : str -> A) w :
  calls (snd (bind (generate_content gateway model p)
                   (fun response => ret (k response)) w))
  = calls w ++ [p].
Proof.
  unfold bind, generate_content, ret. now destruct (gateway model p).
Qed.

(** C7: for a history of n turns the request of [tool_general_chat] has
    2n+2 entries: a first user entry whose text is the framing, the fixed
    instructions with the role name and the reply language in them, then
    for each prior turn, in order, a user entry with its user text and a
    model entry with its assistant text, then the current input as a last
    user entry; this request is what the model is called with. *)
Theorem general_chat_contents_shape (model : GenerativeModel)
    (user_input language role : str) (history : list Turn) (w : world) :
  general_chat_contents user_input language role history
  = [{| Script.role := lit "user";
        parts := [(lit "
You are GenieTalk, an AI agentic assistant.

Role: "
                      ++ role
                      ++ lit "

You must:
- Be helpful and concise.
- Adapt your tone to the role (e.g., more emotional for Emotional Support, technical for Coding Help).
- Always respond in this language: "
                      ++ language
                      ++ lit ".
")] |}]
      ++ flat_map (fun msg =>
                     [{| Script.role := lit "user"; parts := [user msg] |};
                      {| Script.role := lit "model"; parts := [assistant msg] |}])
                  history
      ++ [{| Script.role := lit "user"; parts := [user_input] |}]
  /\ length (general_chat_contents user_input language role history)
     = 2 * length history + 2
  /\ calls (snd (tool_general_chat model user_input language role history w))
     = calls w
         ++ [Contents (general_chat_contents user_input language role history)].
Proof.
  assert (E : general_chat_contents user_input language role history
              = [{| Script.role := lit "user";
                    parts := [system_prompt language role] |}]
                  ++ flat_map turn_entries history
                  ++ [{| Script.role := lit "user"; parts := [user_input] |}]).
  { unfold general_chat_contents. rewrite history_loop.
    now rewrite <- app_assoc. }
  split; [|split].
  - rewrite E. unfold system_prompt. reflexivity.
  - rewrite E, !length_app, (flat_map_pair_length turn_entries) by reflexivity.
    simpl. lia.
  - apply bind_generate_calls.
Qed.

Lemma slice_from_minus6 {A} (l : list A) :
  slice_from (-6) l = skipn (length l - 6) l.
Proof. exact (slice_from_last 6 l eq_refl). Qed.

Lemma history_text_eq (chat_history : list Turn) :
  history_text chat_history =
    match chat_history with
    | [] => []
    | _ :: _ =>
      lit "
Previous conversation:
" ++ concat (map history_line
               (skipn (length chat_history - 6) chat_history))
    end.
Proof.
  unfold history_text. destruct chat_history as [|t h]; [reflexivity|].
  now rewrite fold_left_append, slice_from_minus6.
Qed.

Lemma doc_hint_eq (doc_text : str) :
  doc_hint doc_text =
    if forallb isspace doc_text then []
    else lit "

The user also provided document text. You can treat it as context when needed:
" ++ triple_quote ++ firstn (Z.to_nat 8000) doc_text ++ triple_quote.
Proof.
  unfold doc_hint. rewrite truthy_strip.
  destruct (forallb isspace doc_text); [reflexivity|].
  simpl negb. cbv iota. now rewrite slice_to_firstn by lia.
Qed.

(** C4: with a blank document context (empty or white space only)
    [tool_document_qa] returns the fixed message and leaves the world as
    it was, so the model is not called; otherwise the model is called once
    with a prompt in which the document appears as its first 25,000
    characters at most, between a head and a tail that do not depend on
    the document. *)
Theorem tool_document_qa_blank_or_truncated (model : GenerativeModel)
    (question language : str) :
  exists head tail : str, forall (doc_text : str) (w : world),
    let out := tool_document_qa model question doc_text language w in
    if forallb isspace doc_text then
      fst out = Ok (lit "(I could not find any document text. Please upload a PDF or TXT first.)")
      /\ snd out = w
    else
      calls (snd out)
      = calls w ++ [Prompt (head ++ firstn (Z.to_nat 25000) doc_text ++ tail)]
      /\ length (firstn (Z.to_nat 25000) doc_text) <= Z.to_nat 25000.
Proof.
  pose (p := document_qa_prompt question [] language).
  unfold document_qa_prompt in p.
  match eval unfold p in p with
  | ?a ++ ?l ++ ?b ++ ?q ++ ?c ++ ?t ++ _ ++ ?rest =>
    exists (a ++ l ++ b ++ q ++ c ++ t), rest
  end.
  clear p. intros doc_text w. cbv zeta.
  unfold Script.tool_document_qa. rewrite truthy_strip, negb_involutive.
  destruct (forallb isspace doc_text).
  - split; reflexivity.
  - split; [|apply firstn_le_length].
    rewrite bind_generate_calls. unfold document_qa_prompt.
    rewrite slice_to_firstn by lia. now rewrite <- !app_assoc.
Qed.

(** C5: with a blank resume text [tool_resume_review] returns the fixed
    message and leaves the world as it was, so the model is not called;
    otherwise the model is called once with a prompt that embeds the first
    20,000 characters of the text, which are exactly 20,000 characters
    when the text is longer than that. *)
Theorem tool_resume_review_blank_or_truncated (model : GenerativeModel)
    (language : str) :
  exists head tail : str, forall (resume_text : str) (w : world),
    let out := tool_resume_review model resume_text language w in
    if forallb isspace resume_text then
      fst out = Ok (lit "Please upload your resume as PDF/TXT or paste it so I can review it.")
      /\ snd out = w
    else
      calls (snd out)
      = calls w
          ++ [Prompt (head ++ firstn (Z.to_nat 20000) resume_text ++ tail)]
      /\ (Z.to_nat 20000 < length resume_text ->
          length (firstn (Z.to_nat 20000) resume_text) = Z.to_nat 20000).
Proof.
  pose (p := resume_review_prompt [] language).
  unfold resume_review_prompt in p.
  match eval unfold p in p with
  | ?a ++ ?l ++ ?b ++ ?t ++ _ ++ ?rest => exists (a ++ l ++ b ++ t), rest
  end.
  clear p. intros resume_text w. cbv zeta.
  unfold Script.tool_resume_review. rewrite truthy_strip, negb_involutive.
  destruct (forallb isspace resume_text).
  - split; reflexivity.
  - split.
    + rewrite bind_generate_calls. unfold resume_review_prompt.
      rewrite slice_to_firstn by lia. now rewrite <- !app_assoc.
    + intros Hlong. rewrite length_firstn. lia.
Qed.

(** C6: the prompt of the agentic mode ends with the history section, a
    newline, the document section and a newline.  The history section is
    empty without prior turns; otherwise it is the header followed by the
    last min(6, n) turns, in order, each as a "User:" line and an
    "Assistant:" line.  The document section is empty for a blank document
    context and otherwise embeds its first 8,000 characters at most. *)
Theorem agentic_prompt_window (model : GenerativeModel)
    (goal role language : str) :
  exists head : str,
  forall (chat_history : list Turn) (doc_text : str) (w : world),
    let window := skipn (length chat_history - 6) chat_history in
    let history_section :=
      match chat_history with
      | [] => []
      | _ :: _ =>
        lit "
Previous conversation:
" ++ concat (map (fun turn =>
                    lit "User: " ++ user turn ++ nl
                      ++ lit "Assistant: " ++ assistant turn ++ nl)
                 window)
      end in
    let document_section :=
      if forallb isspace doc_text then []
      else lit "

The user also provided document text. You can treat it as context when needed:
" ++ triple_quote ++ firstn (Z.to_nat 8000) doc_text ++ triple_quote in
    calls (snd (agentic_plan_and_execute model goal role language doc_text
                  chat_history w))
    = calls w
        ++ [Prompt (head ++ history_section ++ nl ++ document_section ++ nl)]
    /\ length window = Nat.min 6 (length chat_history)
    /\ (exists older, chat_history = older ++ window)
    /\ length (firstn (Z.to_nat 8000) doc_text) <= Z.to_nat 8000.
Proof.
  pose (p := agentic_prompt goal role language [] []).
  unfold agentic_prompt in p.
  match eval unfold p in p with
  | ?a ++ ?b ++ ?c ++ ?d ++ ?e ++ ?f ++ ?g ++ ?h ++ ?i ++ ?j ++ ?k ++ _ =>
    exists (a ++ b ++ c ++ d ++ e ++ f ++ g ++ h ++ i ++ j ++ k)
  end.
  clear p. intros chat_history doc_text w. cbv zeta.
  split; [|split; [|split]].
  - unfold Script.agentic_plan_and_execute. rewrite bind_generate_calls.
    unfold agentic_prompt.
    rewrite history_text_eq, doc_hint_eq, lit_newline.
    rewrite (map_ext _ _ history_line_eq).
    now rewrite <- !app_assoc.
  - rewrite length_skipn. lia.
  - exists (firstn (length chat_history - 6) chat_history).
    symmetry. apply firstn_skipn.
  - apply firstn_le_length.
Qed.

End Prompts.

End PromptFacts.

(** ** Routing and the handling of one input *)

Module ControllerFacts.
Import Script.
Local Open Scope nat_scope.

(** Decide the comparisons of the role with the literals of the source. *)
Ltac decide_roles :=
  repeat match goal with
         | |- context [str_eqb (lit ?a) (lit ?b)] =>
           let v := eval vm_compute in (str_eqb (lit a) (lit b)) in
           replace (str_eqb (lit a) (lit b)) with v by (vm_compute; reflexivity);
           cbv iota
         end.


Section Controller.

Variable gateway : GenerativeModel -> payload -> option str.

Local Abbreviation generate_content := (Script.generate_content gateway).
Local Abbreviation tool_general_chat := (Script.tool_general_chat gateway).
Local Abbreviation tool_coding_help := (Script.tool_coding_help gateway).
Local Abbreviation tool_resume_review := (Script.tool_resume_review gateway).
Local Abbreviation tool_emotional_support :=
  (Script.tool_emotional_support gateway).
Local Abbreviation tool_document_qa := (Script.tool_document_qa gateway).
Local Abbreviation tool_translate := (Script.tool_translate gateway).
Local Abbreviation chat_route := (Script.chat_route gateway).
Local Abbreviation handle_input := (Script.handle_input gateway).
Local Abbreviation turn_controller := (Script.turn_controller gateway).



Lemma not_extended {A} (l : list A) (a : A) : l <> l ++ [a].
Proof.
  intros E. apply (f_equal (@length A)) in E.
  rewrite length_app in E. simpl in E. lia.
Qed.

(** A tool either answers at once, without touching the world, or calls
    the model once and returns the stripped text of its response. *)
Lemma chat_route_shape model role user_input reply_language doc_text_context w :
  (exists reply,
      chat_route model role user_input reply_language doc_text_context w
      = (Ok reply, w))
  \/ (exists p,
         chat_route model role user_input reply_language doc_text_context w
         = bind (generate_content model p)
                (fun response => ret (strip response)) w).
Proof.
  unfold Script.chat_route,
    Script.tool_general_chat, Script.tool_coding_help,
    Script.tool_resume_review, Script.tool_emotional_support,
    Script.tool_document_qa, Script.tool_translate.
  repeat match goal with
         | |- context [if str_eqb ?a ?b then _ else _] =>
           destruct (str_eqb a b)
         end;
    try match goal with
        | |- context [if negb ?c then _ else _] => destruct (negb c)
        end;
    first [ left; eexists; reflexivity
          | right; eexists; unfold bind at 1, get_messages; reflexivity ].
Qed.

(** One input in chat mode: either the tool answered without a call and
    the turn is appended, or one call was made and the turn is appended
    exactly when the call returned. *)
Lemma handle_input_chat api_key role reply_language doc_text_context
    user_input w :
  let out :=
    handle_input api_key (lit "Chat") role reply_language doc_text_context
      user_input w in
  (exists reply,
      fst out = Ok tt /\ calls (snd out) = calls w /\
      messages (snd out)
      = messages w ++ [{| user := user_input; assistant := reply |}])
  \/ (exists p,
         calls (snd out) = calls w ++ [p] /\
         match gateway (init_gemini api_key) p with
         | Some text =>
           fst out = Ok tt /\
           messages (snd out)
           = messages w
               ++ [{| user := user_input; assistant := strip text |}]
         | None =>
           fst out = Raise GatewayError /\
           messages (snd out) = messages w /\
           agent_runs (snd out) = agent_runs w
         end).
Proof.
  cbv zeta. unfold Script.handle_input. decide_roles.
  cbv beta iota delta [bind show].
  match goal with
  | |- context [Script.chat_route gateway ?m ?r ?u ?l ?d ?w1] =>
    destruct (chat_route_shape m r u l d w1) as [[reply E]|[p E]]
  end.
  - left. exists reply. rewrite E. repeat split.
  - right. exists p. rewrite E.
    cbv beta iota delta [bind Script.generate_content ret].
    destruct (gateway (init_gemini api_key) p); repeat split.
Qed.

(** C1: in chat mode, when the model call made for an input fails, the
    script ends with that failure and no turn is appended: the messages,
    and the agent runs, are those from before the call. *)
Theorem failed_call_appends_no_turn
    (api_key role reply_language doc_text_context : str)
    (user_input : option str) (w : world) (p : payload) :
  let out :=
    turn_controller api_key (lit "Chat") role reply_language
      doc_text_context user_input w in
  calls (snd out) = calls w ++ [p] ->
  gateway (init_gemini api_key) p = None ->
  fst out = Raise GatewayError
  /\ messages (snd out) = messages w
  /\ agent_runs (snd out) = agent_runs w.
Proof.
  cbv zeta. unfold Script.turn_controller.
  destruct user_input as [text|]; simpl submitted.
  - destruct (truthy text), (truthy api_key); simpl andb; cbv iota.
    + unfold bind at 1, ret at 1.
      pose proof (handle_input_chat api_key role reply_language
                    doc_text_context text w) as H.
      cbv zeta in H. intros Hcalls Hfail.
      destruct H as [(reply & _ & Hsame & _)|(q & Hq & H)].
      * rewrite Hsame in Hcalls. now apply not_extended in Hcalls.
      * rewrite Hq in Hcalls. apply app_inj_tail in Hcalls as [_ ->].
        now rewrite Hfail in H.
    + simpl. intros Hcalls. now apply not_extended in Hcalls.
    + simpl. intros Hcalls. now apply not_extended in Hcalls.
    + simpl. intros Hcalls. now apply not_extended in Hcalls.
  - simpl. intros Hcalls. now apply not_extended in Hcalls.
Qed.

(** C2: with no API key, a submitted input gets the warning and the
    script stops there: the model is not called (the calls are those from
    before) and the messages and agent runs are unchanged. *)
Theorem missing_credential_halts
    (main_mode role reply_language doc_text_context : str)
    (user_input : option str) (w : world) :
  submitted user_input = true ->
  turn_controller [] main_mode role reply_language doc_text_context
    user_input w
  = (Raise StopException,
     {| messages := messages w;
        agent_runs := agent_runs w;
        screen :=
          screen w
            ++ [warning (lit "Please enter your Gemini API key in the sidebar first.")];
        calls := calls w |}).
Proof.
  intros H. unfold Script.turn_controller. rewrite H. reflexivity.
Qed.

End Controller.

End ControllerFacts.

(** ** Scenarios *)

Module Scenarios.
Import Script PromptFacts ControllerFacts.
Local Open Scope nat_scope.

Definition failing_gateway : GenerativeModel -> payload -> option str :=
  fun _ _ => None.

Definition bonjour_gateway : GenerativeModel -> payload -> option str :=
  fun _ _ => Some (lit " Bonjour
").

Definition fresh : world :=
  {| messages := []; agent_runs := []; screen := []; calls := [] |}.

Definition turn_of (n : N) : Turn :=
  {| user := lit "question " ++ [0x30 + n]%N;
     assistant := lit "answer " ++ [0x30 + n]%N |}.

Definition seven_turns : list Turn := map turn_of [1; 2; 3; 4; 5; 6; 7]%N.

Definition long_resume : str := repeat 0x61%N (Z.to_nat 20001).

(** The translator scenario: the reply is stripped and the turn appended. *)
Example translator_turn :
  let out :=
    turn_controller bonjour_gateway (lit "key") (lit "Chat") (lit "Translator")
      (lit "French") [] (Some (lit "Good morning")) fresh in
  fst out = Ok tt
  /\ messages (snd out)
     = [{| user := lit "Good morning"; assistant := lit "Bonjour" |}]
  /\ calls (snd out)
     = [Prompt (translate_prompt (lit "Good morning") (lit "French"))].
Proof. vm_compute. repeat split. Qed.

(** A blank resume is answered without a call, and the turn is appended
    whatever the gateway would have done. *)
Example blank_resume_turn :
  let out :=
    turn_controller failing_gateway (lit "key") (lit "Chat")
      (lit "Resume Review") (lit "English") [] (Some (lit " ")) fresh in
  fst out = Ok tt
  /\ messages (snd out)
     = [{| user := lit " ";
           assistant := lit "Please upload your resume as PDF/TXT or paste it so I can review it." |}]
  /\ calls (snd out) = [].
Proof. vm_compute. repeat split. Qed.

Lemma failed_call_appends_no_turn_witness :
  let out :=
    turn_controller failing_gateway (lit "key") (lit "Chat") (lit "Translator")
      (lit "French") [] (Some (lit "Good morning")) fresh in
  fst out = Raise GatewayError
  /\ messages (snd out) = messages fresh
  /\ agent_runs (snd out) = agent_runs fresh.
Proof.
  apply (failed_call_appends_no_turn failing_gateway (lit "key")
           (lit "Translator") (lit "French") [] (Some (lit "Good morning"))
           fresh (Prompt (translate_prompt (lit "Good morning") (lit "French")))).
  - vm_compute. reflexivity.
  - reflexivity.
Defined.

Lemma missing_credential_halts_witness :
  turn_controller bonjour_gateway [] (lit "Chat") (lit "General Assistant")
    (lit "English") [] (Some (lit "hello")) fresh
  = (Raise StopException,
     {| messages := messages fresh;
        agent_runs := agent_runs fresh;
        screen :=
          screen fresh
            ++ [warning (lit "Please enter your Gemini API key in the sidebar first.")];
        calls := calls fresh |}).
Proof.
  apply (missing_credential_halts bonjour_gateway (lit "Chat")
           (lit "General Assistant") (lit "English") [] (Some (lit "hello"))
           fresh).
  vm_compute. reflexivity.
Defined.


Lemma tool_resume_review_truncates_witness :
  exists head tail : str,
    calls (snd (tool_resume_review bonjour_gateway (init_gemini (lit "key"))
                  long_resume (lit "English") fresh))
    = calls fresh
        ++ [Prompt (head ++ firstn (Z.to_nat 20000) long_resume ++ tail)]
    /\ length (firstn (Z.to_nat 20000) long_resume) = Z.to_nat 20000.
Proof.
  destruct (tool_resume_review_blank_or_truncated bonjour_gateway
              (init_gemini (lit "key")) (lit "English")) as (head & tail & H).
  exists head, tail.
  specialize (H long_resume fresh). cbv zeta in H.
  assert (E : forallb isspace long_resume = false) by (vm_compute; reflexivity).
  rewrite E in H. destruct H as [Hcalls Hlen].
  split; [exact Hcalls|]. apply Hlen.
  unfold long_resume. rewrite repeat_length. lia.
Defined.

Lemma agentic_prompt_window_seven :
  exists head : str,
    calls (snd (agentic_plan_and_execute bonjour_gateway
                  (init_gemini (lit "key")) (lit "plan my week")
                  (lit "General Assistant") (lit "English") [] seven_turns
                  fresh))
    = calls fresh
        ++ [Prompt (head
                      ++ (lit "
Previous conversation:
" ++ concat (map (fun turn =>
                    lit "User: " ++ user turn ++ nl
                      ++ lit "Assistant: " ++ assistant turn ++ nl)
                 (map turn_of [2; 3; 4; 5; 6; 7]%N)))
                      ++ nl ++ [] ++ nl)].
Proof.
  destruct (agentic_prompt_window bonjour_gateway (init_gemini (lit "key"))
              (lit "plan my week") (lit "General Assistant") (lit "English"))
    as [head H].
  exists head. pose proof (proj1 (H seven_turns [] fresh)) as H7.
  cbv zeta in H7.
  match type of H7 with
  | _ = _ ++ [Prompt (_ ++ ?m ++ _ ++ ?d ++ _)] =>
    replace d with (@nil N) in H7 by (vm_compute; reflexivity);
    replace m with
      (lit "
Previous conversation:
" ++ concat (map (fun turn =>
                    lit "User: " ++ user turn ++ nl
                      ++ lit "Assistant: " ++ assistant turn ++ nl)
                 (map turn_of [2; 3; 4; 5; 6; 7]%N))) in H7
      by (vm_compute; reflexivity)
  end.
  exact H7.
Defined.

End Scenarios.

(** ** More on text extraction *)

Module ExtractionMore.
Import Script Utf8 Utf8Facts ExtractionFacts.
Local Open Scope nat_scope.

Lemma lit_txt : lit ".txt" = [46; 116; 120; 116]%N.
Proof. vm_compute. reflexivity. Qed.

Lemma lit_pdf : lit ".pdf" = [46; 112; 100; 102]%N.
Proof. vm_compute. reflexivity. Qed.

Lemma startswith_app p s : startswith p (p ++ s) = true.
Proof.
  induction p as [|a p IH]; [reflexivity|].
  simpl. now rewrite N.eqb_refl, IH.
Qed.

Lemma endswith_app s suffix : endswith (s ++ suffix) suffix = true.
Proof. unfold endswith. rewrite rev_app_distr. apply startswith_app. Qed.

Lemma lower_app a b : lower (a ++ b) = lower a ++ lower b.
Proof. apply map_app. Qed.

Lemma join_cons sep p q rest :
  join sep (p :: q :: rest) = p ++ sep ++ join sep (q :: rest).
Proof. reflexivity. Qed.

Lemma join_app sep (xs ys : list str) :
  xs <> [] -> ys <> [] ->
  join sep (xs ++ ys) = join sep xs ++ sep ++ join sep ys.
Proof.
  intros Hx Hy. induction xs as [|x xs IH]; [congruence|].
  destruct xs as [|x' xs].
  - destruct ys as [|y ys]; [congruence|]. reflexivity.
  - change ((x :: x' :: xs) ++ ys) with (x :: x' :: (xs ++ ys)).
    rewrite !join_cons.
    change (x' :: xs ++ ys) with ((x' :: xs) ++ ys).
    rewrite IH by discriminate. now rewrite <- !app_assoc.
Qed.

Lemma join_blank_lines n :
  join nl (repeat [] n) = repeat 0x0A%N (n - 1).
Proof.
  induction n as [|n IH]; [reflexivity|].
  destruct n as [|n]; [reflexivity|].
  change (repeat [] (S (S n))) with (@nil N :: [] :: repeat [] n).
  rewrite join_cons.
  change ([] :: repeat [] n) with (repeat (@nil N) (S n)).
  rewrite IH. simpl. now rewrite Nat.sub_0_r.
Qed.

Lemma blank_newlines n : forallb isspace (repeat 0x0A%N n) = true.
Proof. induction n as [|n IH]; [reflexivity|]. simpl repeat. simpl forallb. exact IH. Qed.

Lemma pages_without_text (pages : list (option str)) :
  Forall (fun page => page = None \/ page = Some []) pages ->
  map or_empty pages = repeat [] (length pages).
Proof.
  induction 1 as [|page pages [-> | ->] _ IH]; simpl; f_equal; auto.
Qed.

Section Extraction.

Variable pypdf2_installed : bool.
Variable pdf_pages : bytes -> option (list (option str)).

Local Abbreviation read_pdf_file :=
  (Script.read_pdf_file pypdf2_installed pdf_pages).
Local Abbreviation extract_one :=
  (Script.extract_one pypdf2_installed pdf_pages).
Local Abbreviation extract_loop :=
  (Script.extract_loop pypdf2_installed pdf_pages).
Local Abbreviation get_uploaded_text :=
  (Script.get_uploaded_text pypdf2_installed pdf_pages).

(** The loop returns only when every file was extracted, and then with
    one text per file after what it started from. *)
Lemma extract_loop_inv files : forall full_text r,
  extract_loop files full_text = Ok r ->
  exists texts,
    Forall2 (fun f t => extract_one f = Ok t) files texts /\
    r = full_text ++ texts.
Proof.
  induction files as [|f files IH]; intros acc r H; simpl in H.
  - injection H as <-. exists []. split; [constructor|now rewrite app_nil_r].
  - destruct (extract_one f) as [t|e] eqn:E; [|discriminate].
    destruct (IH _ _ H) as (texts & HF & ->).
    exists (t :: texts). split; [now constructor|now rewrite <- app_assoc].
Qed.

Lemma get_uploaded_text_inv files s :
  files <> [] ->
  get_uploaded_text files = Ok s ->
  exists texts,
    Forall2 (fun f t => extract_one f = Ok t) files texts /\
    s = join (nl ++ nl) texts.
Proof.
  intros Hne H. destruct files as [|f files]; [congruence|].
  unfold Script.get_uploaded_text in H.
  destruct (extract_loop (f :: files) []) as [r|e] eqn:E; [|discriminate].
  injection H as <-. destruct (extract_loop_inv _ _ _ E) as (texts & HF & ->).
  now exists texts.
Qed.

(** X1: the suffix test does not look at the case of the letters: a
    name whose last four characters lower to ".txt" is read as text, one
    whose last four characters lower to ".pdf" is read as a PDF. *)
Theorem suffix_dispatch (stem ext : str) (content : bytes) :
  let f := {| name := stem ++ ext; data := content |} in
  (lower ext = lit ".txt" -> extract_one f = read_txt_file f)
  /\ (lower ext = lit ".pdf" -> extract_one f = read_pdf_file f).
Proof.
  cbv zeta. unfold Script.extract_one. simpl name. rewrite lower_app.
  split; intros ->.
  - now rewrite endswith_app.
  - rewrite (endswith_app _ (lit ".pdf")).
    unfold endswith at 1. rewrite rev_app_distr, lit_pdf, lit_txt.
    reflexivity.
Qed.

(** X2: a PDF whose pages all come without text is extracted as one
    newline between each two pages and nothing else, a text that is blank;
    with one such page it is the empty string. *)
Theorem read_pdf_file_without_text (f : file) (pages : list (option str)) :
  pypdf2_installed = true ->
  pdf_pages (data f) = Some pages ->
  Forall (fun page => page = None \/ page = Some []) pages ->
  read_pdf_file f = Ok (repeat 0x0A%N (length pages - 1))
  /\ forallb isspace (repeat 0x0A%N (length pages - 1)) = true.
Proof.
  intros Hi Hp Hblank. split; [|apply blank_newlines].
  rewrite (read_pdf_file_pages _ _ f pages Hi Hp). f_equal.
  rewrite <- join_blank_lines. f_equal. now apply pages_without_text.
Qed.

(** X3: reading a PDF is not guarded: when it raises, the whole
    extraction raises and the texts of the files before it are lost. *)
Theorem get_uploaded_text_raises (files1 : list file) (texts : list str)
    (f : file) (files2 : list file) :
  Forall2 (fun g t => extract_one g = Ok t) files1 texts ->
  endswith (lower (name f)) (lit ".txt") = false ->
  endswith (lower (name f)) (lit ".pdf") = true ->
  pypdf2_installed = true ->
  pdf_pages (data f) = None ->
  get_uploaded_text (files1 ++ f :: files2) = Raise PdfReadError.
Proof.
  intros HF Htxt Hpdf Hi Hp.
  assert (He : extract_one f = Raise PdfReadError).
  { unfold Script.extract_one, Script.read_pdf_file.
    now rewrite Htxt, Hpdf, Hi, Hp. }
  unfold Script.get_uploaded_text.
  rewrite (extract_loop_raise _ _ files1 f files2 texts PdfReadError [] HF He).
  now destruct files1.
Qed.

(** X4: nothing else makes the extraction fail: when every file is a
    text file, has an unsupported suffix, or is a PDF that can be read
    (or PyPDF2 is missing), the extraction returns the joined texts. *)
Theorem get_uploaded_text_returns (files : list file) :
  (forall f, In f files ->
      endswith (lower (name f)) (lit ".txt") = true
      \/ endswith (lower (name f)) (lit ".pdf") = false
      \/ pypdf2_installed = false
      \/ pdf_pages (data f) <> None) ->
  exists texts,
    Forall2 (fun f t => extract_one f = Ok t) files texts
    /\ get_uploaded_text files = Ok (join (nl ++ nl) texts).
Proof.
  intros H.
  assert (HF : exists texts,
             Forall2 (fun f t => extract_one f = Ok t) files texts).
  { induction files as [|f files IH]; [exists []; constructor|].
    destruct IH as [texts HF]; [intros g Hg; apply H; now right|].
    assert (Hf : exists t, extract_one f = Ok t).
    { unfold Script.extract_one, Script.read_pdf_file.
      destruct (H f (or_introl eq_refl)) as [E|[E|[E|E]]].
      - rewrite E. eexists. apply read_txt_file_ok.
      - destruct (endswith (lower (name f)) (lit ".txt"));
          [eexists; apply read_txt_file_ok|].
        rewrite E. eexists. reflexivity.
      - destruct (endswith (lower (name f)) (lit ".txt"));
          [eexists; apply read_txt_file_ok|].
        destruct (endswith (lower (name f)) (lit ".pdf"));
          [|eexists; reflexivity].
        rewrite E. eexists. reflexivity.
      - destruct (endswith (lower (name f)) (lit ".txt"));
          [eexists; apply read_txt_file_ok|].
        destruct (endswith (lower (name f)) (lit ".pdf"));
          [|eexists; reflexivity].
        destruct pypdf2_installed; [|eexists; reflexivity].
        simpl negb. cbv iota.
        destruct (pdf_pages (data f)); [eexists; reflexivity|congruence]. }
    destruct Hf as [t Ht]. exists (t :: texts). now constructor. }
  destruct HF as [texts HF]. exists texts. split; [exact HF|].
  destruct files as [|f files]; [inversion HF; reflexivity|].
  unfold Script.get_uploaded_text.
  now rewrite (extract_loop_ok _ _ _ texts [] HF).
Qed.

(** X5: uploads compose: the text of two lists of files uploaded
    together is the text of the first, a blank line, and the text of the
    second. *)
Theorem get_uploaded_text_app (files1 files2 : list file) (s1 s2 : str) :
  files1 <> [] -> files2 <> [] ->
  get_uploaded_text files1 = Ok s1 ->
  get_uploaded_text files2 = Ok s2 ->
  get_uploaded_text (files1 ++ files2) = Ok (s1 ++ nl ++ nl ++ s2).
Proof.
  intros H1 H2 E1 E2.
  destruct (get_uploaded_text_inv files1 s1 H1 E1) as (t1 & F1 & ->).
  destruct (get_uploaded_text_inv files2 s2 H2 E2) as (t2 & F2 & ->).
  assert (N1 : t1 <> []) by (intros ->; inversion F1; congruence).
  assert (N2 : t2 <> []) by (intros ->; inversion F2; congruence).
  pose proof (Forall2_app F1 F2) as F.
  unfold Script.get_uploaded_text.
  rewrite (extract_loop_ok _ _ _ _ [] F).
  destruct (files1 ++ files2) eqn:E.
  { apply app_eq_nil in E as [-> _]. congruence. }
  f_equal. change ([] ++ (t1 ++ t2)) with (t1 ++ t2).
  rewrite (join_app _ t1 t2 N1 N2). now rewrite <- !app_assoc.
Qed.

(** X6: a text file of ASCII bytes is extracted unchanged, one
    character per byte. *)
Theorem read_txt_file_ascii (f : file) :
  Forall (fun b => (Byte.to_N b < 0x80)%N) (data f) ->
  read_txt_file f = Ok (map Byte.to_N (data f)).
Proof.
  intros H. rewrite read_txt_file_ok, (scan_ascii _ H). f_equal.
  clear H. induction (data f) as [|b bs IH]; [reflexivity|].
  simpl. f_equal. exact IH.
Qed.

End Extraction.

Definition scan_pdf : file :=
  {| name := lit "Scan.PDF"; data := [x25; x50; x44; x46] |}.

Definition broken_pdf : file :=
  {| name := lit "broken.pdf"; data := [x00] |}.

(** A reader that finds three pages without text in [scan_pdf] and
    fails on everything else. *)
Definition three_empty_pages (content : bytes) : option (list (option str)) :=
  match content with
  | [x25; x50; x44; x46] => Some [None; Some []; None]
  | _ => None
  end.

Lemma suffix_dispatch_witness :
  Script.extract_one true three_empty_pages
    {| name := lit "Notes" ++ lit ".TxT"; data := [x68; x69] |}
  = read_txt_file {| name := lit "Notes" ++ lit ".TxT"; data := [x68; x69] |}
  /\ Script.extract_one true three_empty_pages
       {| name := lit "Scan" ++ lit ".PDF"; data := [x25; x50; x44; x46] |}
     = Script.read_pdf_file true three_empty_pages
         {| name := lit "Scan" ++ lit ".PDF"; data := [x25; x50; x44; x46] |}.
Proof.
  split.
  - apply (proj1 (suffix_dispatch true three_empty_pages (lit "Notes")
                    (lit ".TxT") [x68; x69])).
    vm_compute. reflexivity.
  - apply (proj2 (suffix_dispatch true three_empty_pages (lit "Scan")
                    (lit ".PDF") [x25; x50; x44; x46])).
    vm_compute. reflexivity.
Defined.

Lemma read_pdf_file_without_text_witness :
  Script.read_pdf_file true three_empty_pages scan_pdf
  = Ok (repeat 0x0A%N (length [@None str; Some []; None] - 1))
  /\ forallb isspace (repeat 0x0A%N (length [@None str; Some []; None] - 1))
     = true.
Proof.
  apply (read_pdf_file_without_text true three_empty_pages scan_pdf
           [None; Some []; None]).
  - reflexivity.
  - reflexivity.
  - repeat first
      [ apply Forall_nil
      | apply Forall_cons; [first [left; reflexivity | right; reflexivity]|] ].
Defined.

Lemma get_uploaded_text_raises_witness :
  Script.get_uploaded_text true three_empty_pages
    ([plain_txt] ++ broken_pdf :: [notes_txt])
  = Raise PdfReadError.
Proof.
  apply (get_uploaded_text_raises true three_empty_pages [plain_txt]
           [lit "ok"] broken_pdf [notes_txt]).
  - repeat constructor.
  - vm_compute. reflexivity.
  - vm_compute. reflexivity.
  - reflexivity.
  - reflexivity.
Defined.

Lemma get_uploaded_text_returns_witness :
  exists texts,
    Forall2 (fun f t => Script.extract_one false three_empty_pages f = Ok t)
      [plain_txt; broken_pdf; photo_png] texts
    /\ Script.get_uploaded_text false three_empty_pages
         [plain_txt; broken_pdf; photo_png]
       = Ok (join (nl ++ nl) texts).
Proof.
  apply (get_uploaded_text_returns false three_empty_pages
           [plain_txt; broken_pdf; photo_png]).
  intros f Hf. right. right. left. reflexivity.
Defined.

Lemma get_uploaded_text_app_witness :
  Script.get_uploaded_text true three_empty_pages ([plain_txt] ++ [notes_txt])
  = Ok (lit "ok" ++ nl ++ nl ++ lit "hi").
Proof.
  apply (get_uploaded_text_app true three_empty_pages [plain_txt] [notes_txt]
           (lit "ok") (lit "hi")).
  - discriminate.
  - discriminate.
  - vm_compute. reflexivity.
  - vm_compute. reflexivity.
Defined.

Lemma read_txt_file_ascii_witness :
  read_txt_file plain_txt = Ok (map Byte.to_N (data plain_txt)).
Proof.
  apply (read_txt_file_ascii plain_txt).
  repeat constructor.
Defined.

End ExtractionMore.

(** ** More on [strip] *)

Module StripFacts.
Local Open Scope nat_scope.

Lemma lstrip_split s :
  exists spaces, s = spaces ++ lstrip s /\ forallb isspace spaces = true.
Proof.
  induction s as [|c r (sp & E & Hsp)]; [now exists []|].
  simpl. destruct (isspace c) eqn:Ec.
  - exists (c :: sp). simpl. rewrite Ec, Hsp. split; [now f_equal|reflexivity].
  - now exists [].
Qed.

Lemma lstrip_fixed s :
  match s with [] => True | c :: _ => isspace c = false end ->
  lstrip s = s.
Proof. destruct s as [|c r]; [reflexivity|]. simpl. now intros ->. Qed.

Lemma lstrip_idempotent s : lstrip (lstrip s) = lstrip s.
Proof. apply lstrip_fixed, lstrip_head. Qed.

Lemma rstrip_split s :
  exists spaces, s = rstrip s ++ spaces /\ forallb isspace spaces = true.
Proof.
  unfold rstrip. destruct (lstrip_split (rev s)) as (sp & E & Hsp).
  exists (rev sp). rewrite forallb_rev. split; [|exact Hsp].
  rewrite <- rev_app_distr, <- E. now rewrite rev_involutive.
Qed.

(** Stripping on the right keeps the first character. *)
Lemma rstrip_head s :
  match s with [] => True | c :: _ => isspace c = false end ->
  match rstrip s with [] => True | c :: _ => isspace c = false end.
Proof.
  intros H. destruct (rstrip_split s) as (sp & E & Hsp).
  destruct (rstrip s) as [|c r] eqn:Er; [exact I|].
  rewrite E in H. exact H.
Qed.

Lemma strip_lstrip_fixed s : lstrip (strip s) = strip s.
Proof. apply lstrip_fixed. unfold strip. apply rstrip_head, lstrip_head. Qed.

Lemma rstrip_idempotent s : rstrip (rstrip s) = rstrip s.
Proof.
  unfold rstrip. now rewrite rev_involutive, lstrip_idempotent.
Qed.

Lemma strip_idempotent s : strip (strip s) = strip s.
Proof.
  unfold strip at 1. rewrite strip_lstrip_fixed.
  unfold strip. apply rstrip_idempotent.
Qed.

Lemma rstrip_last s init c :
  rstrip s = init ++ [c] -> isspace c = false.
Proof.
  unfold rstrip. intros E. apply (f_equal (@rev N)) in E.
  rewrite rev_involutive, rev_app_distr in E. simpl in E.
  pose proof (lstrip_head (rev s)) as H. now rewrite E in H.
Qed.

(** X7: [strip] takes white space, and nothing else, off both ends:
    the text is the stripped text between two runs of white space, the
    stripped text neither starts nor ends with white space, and stripping
    it again changes nothing. *)
Theorem strip_spec (s : str) :
  (exists before after,
      s = before ++ strip s ++ after
      /\ forallb isspace before = true
      /\ forallb isspace after = true)
  /\ (forall c rest, strip s = c :: rest -> isspace c = false)
  /\ (forall init c, strip s = init ++ [c] -> isspace c = false)
  /\ strip (strip s) = strip s.
Proof.
  split; [|split; [|split]].
  - destruct (lstrip_split s) as (before & E1 & H1).
    destruct (rstrip_split (lstrip s)) as (after & E2 & H2).
    exists before, after. unfold strip. rewrite <- E2. auto.
  - intros c rest E. pose proof (strip_lstrip_fixed s) as H.
    rewrite E in H. simpl in H. destruct (isspace c); [|reflexivity].
    pose proof (lstrip_split rest) as (sp & Er & _).
    apply (f_equal (@length N)) in H. apply (f_equal (@length N)) in Er.
    rewrite length_app in Er. simpl in H. lia.
  - intros init c E. unfold strip in E. now apply rstrip_last in E.
  - apply strip_idempotent.
Qed.

Lemma strip_spec_witness :
  strip (lit "  Bonjour !
") = lit "Bonjour " ++ [0x21%N]
  /\ isspace 0x21%N = false.
Proof.
  split; [vm_compute; reflexivity|].
  apply (proj1 (proj2 (proj2 (strip_spec (lit "  Bonjour !
")))) (lit "Bonjour ") 0x21%N).
  vm_compute. reflexivity.
Defined.

End StripFacts.

(** ** More on the handling of one input *)

Module ControllerMore.
Import Script PromptFacts ControllerFacts StripFacts.
Local Open Scope nat_scope.

Lemma agentic_mode_not_chat : lit "Agentic Task / Goal" <> lit "Chat".
Proof. apply str_eqb_neq. vm_compute. reflexivity. Qed.

(** A stored turn as the script makes them: the user text is not empty
    and the assistant text has no white space at its ends. *)
Definition well_formed (t : Turn) : Prop :=
  user t <> [] /\ strip (assistant t) = assistant t.

Section Controller.

Variable gateway : GenerativeModel -> payload -> option str.

Local Abbreviation generate_content := (Script.generate_content gateway).
Local Abbreviation chat_route := (Script.chat_route gateway).
Local Abbreviation handle_input := (Script.handle_input gateway).
Local Abbreviation turn_controller := (Script.turn_controller gateway).
Local Abbreviation tool_translate := (Script.tool_translate gateway).
Local Abbreviation tool_coding_help := (Script.tool_coding_help gateway).
Local Abbreviation tool_emotional_support :=
  (Script.tool_emotional_support gateway).

(** The routing either answers at once with one of the two fixed
    messages, or calls the model once. *)
Lemma chat_route_cases model role user_input reply_language doc_text_context w :
  (exists reply,
      chat_route model role user_input reply_language doc_text_context w
      = (Ok reply, w)
      /\ strip reply = reply)
  \/ (exists p,
         chat_route model role user_input reply_language doc_text_context w
         = bind (generate_content model p)
                (fun response => ret (strip response)) w).
Proof.
  unfold Script.chat_route,
    Script.tool_general_chat, Script.tool_coding_help,
    Script.tool_resume_review, Script.tool_emotional_support,
    Script.tool_document_qa, Script.tool_translate.
  repeat match goal with
         | |- context [if str_eqb ?a ?b then _ else _] =>
           destruct (str_eqb a b)
         end;
    try match goal with
        | |- context [if negb ?c then _ else _] => destruct (negb c)
        end;
    first [ left; eexists; split; [reflexivity | vm_compute; reflexivity]
          | right; eexists; unfold bind at 1, get_messages; reflexivity ].
Qed.

(** The world after one input in chat mode. *)
Lemma handle_input_chat_world api_key role reply_language doc_text_context
    user_input w :
  let out :=
    handle_input api_key (lit "Chat") role reply_language doc_text_context
      user_input w in
  (exists reply,
      strip reply = reply /\
      out = (Ok tt,
             {| messages :=
                  messages w ++ [{| user := user_input; assistant := reply |}];
                agent_runs := agent_runs w;
                screen :=
                  (screen w ++ [chat_message (lit "user") user_input])
                    ++ [chat_message (lit "assistant") reply];
                calls := calls w |}))
  \/ (exists p,
         out = match gateway (init_gemini api_key) p with
               | Some response =>
                 (Ok tt,
                  {| messages :=
                       messages w
                         ++ [{| user := user_input;
                                assistant := strip response |}];
                     agent_runs := agent_runs w;
                     screen :=
                       (screen w ++ [chat_message (lit "user") user_input])
                         ++ [chat_message (lit "assistant") (strip response)];
                     calls := calls w ++ [p] |})
               | None =>
                 (Raise GatewayError,
                  {| messages := messages w;
                     agent_runs := agent_runs w;
                     screen := screen w ++ [chat_message (lit "user") user_input];
                     calls := calls w ++ [p] |})
               end).
Proof.
  cbv zeta. unfold Script.handle_input. decide_roles.
  cbv beta iota delta [bind show].
  match goal with
  | |- context [Script.chat_route gateway ?m ?r ?u ?l ?d ?w1] =>
    destruct (chat_route_cases m r u l d w1) as [(reply & E & Hs)|[p E]]
  end.
  - left. exists reply. rewrite E. split; [exact Hs|reflexivity].
  - right. exists p. rewrite E.
    cbv beta iota delta [bind Script.generate_content ret].
    destruct (gateway (init_gemini api_key) p); reflexivity.
Qed.

(** The world after one input in the agentic mode. *)
Lemma handle_input_agentic_world
    (api_key main_mode role reply_language doc_text_context user_input : str)
    (w : world) :
  main_mode <> lit "Chat" ->
  let p :=
    Prompt (agentic_prompt user_input role reply_language doc_text_context
              (messages w)) in
  let shown :=
    screen w ++ [chat_message (lit "user") (lit "**Goal / Task:** " ++ user_input)] in
  handle_input api_key main_mode role reply_language doc_text_context
    user_input w
  = match gateway (init_gemini api_key) p with
    | Some response =>
      (Ok tt,
       {| messages :=
            messages w
              ++ [{| user := user_input; assistant := strip response |}];
          agent_runs :=
            agent_runs w ++ [{| agentic_explanation := strip response |}];
          screen := shown ++ [chat_message (lit "assistant") (strip response)];
          calls := calls w ++ [p] |})
    | None =>
      (Raise GatewayError,
       {| messages := messages w;
          agent_runs := agent_runs w;
          screen := shown;
          calls := calls w ++ [p] |})
    end.
Proof.
  intros Hmode. cbv zeta. unfold Script.handle_input.
  rewrite (proj2 (str_eqb_neq _ _) Hmode).
  cbv beta iota delta [bind show get_messages Script.agentic_plan_and_execute
                         Script.generate_content ret messages_append
                         agent_runs_append].
  cbn [messages agent_runs screen calls].
  destruct (gateway _ _); reflexivity.
Qed.

(** What one run of the script from the chat input on can be. *)
Lemma turn_controller_cases api_key main_mode role reply_language
    doc_text_context user_input w :
  let out :=
    turn_controller api_key main_mode role reply_language doc_text_context
      user_input w in
  (submitted user_input = false /\ out = (Ok tt, w))
  \/ (submitted user_input = true /\ api_key = [] /\
       out = (Raise StopException,
              {| messages := messages w;
                 agent_runs := agent_runs w;
                 screen :=
                   screen w
                     ++ [warning (lit "Please enter your Gemini API key in the sidebar first.")];
                 calls := calls w |}))
  \/ (exists text,
         user_input = Some text /\ text <> [] /\ api_key <> [] /\
         out = handle_input api_key main_mode role reply_language
                 doc_text_context text w).
Proof.
  cbv zeta. unfold Script.turn_controller.
  destruct user_input as [[|c text]|]; simpl submitted.
  - left. split; reflexivity.
  - destruct api_key as [|k key]; simpl truthy; simpl andb; cbv iota.
    + right. left. repeat split.
    + right. right. exists (c :: text). repeat split; discriminate.
  - left. split; reflexivity.
Qed.

(** X8: in the agentic mode the role is not used for routing: for a
    submitted input with a key, whatever the role and the document, the
    model is called once with the agentic prompt over the stored history.
    When the call returns, its stripped text is stored both as a turn and
    as an agent run; when it fails, neither list changes. *)
Theorem agentic_run
    (api_key main_mode role reply_language doc_text_context text : str)
    (w : world) :
  main_mode <> lit "Chat" -> text <> [] -> api_key <> [] ->
  let p :=
    Prompt (agentic_prompt text role reply_language doc_text_context
              (messages w)) in
  let shown :=
    screen w ++ [chat_message (lit "user") (lit "**Goal / Task:** " ++ text)] in
  turn_controller api_key main_mode role reply_language doc_text_context
    (Some text) w
  = match gateway (init_gemini api_key) p with
    | Some response =>
      (Ok tt,
       {| messages :=
            messages w ++ [{| user := text; assistant := strip response |}];
          agent_runs :=
            agent_runs w ++ [{| agentic_explanation := strip response |}];
          screen := shown ++ [chat_message (lit "assistant") (strip response)];
          calls := calls w ++ [p] |})
    | None =>
      (Raise GatewayError,
       {| messages := messages w;
          agent_runs := agent_runs w;
          screen := shown;
          calls := calls w ++ [p] |})
    end.
Proof.
  intros Hmode Htext Hkey. cbv zeta.
  destruct (turn_controller_cases api_key main_mode role reply_language
              doc_text_context (Some text) w)
    as [[Hs _]|[(_ & Hk & _)|(text' & Ht & _ & _ & ->)]].
  - destruct text; [congruence|discriminate Hs].
  - congruence.
  - injection Ht as <-.
    apply (handle_input_agentic_world api_key main_mode role reply_language
             doc_text_context text w Hmode).
Qed.

(** X9: the script keeps the store well formed: if every stored turn
    has a non-empty user text and an assistant text without white space at
    its ends, so has every turn stored after the run. *)
Theorem turn_controller_keeps_turns
    (api_key main_mode role reply_language doc_text_context : str)
    (user_input : option str) (w : world) :
  Forall well_formed (messages w) ->
  Forall well_formed
    (messages (snd (turn_controller api_key main_mode role reply_language
                      doc_text_context user_input w))).
Proof.
  intros Hw.
  destruct (turn_controller_cases api_key main_mode role reply_language
              doc_text_context user_input w)
    as [[_ ->]|[(_ & _ & ->)|(text & _ & Htext & _ & ->)]];
    [exact Hw|exact Hw|].
  destruct (str_eqb main_mode (lit "Chat")) eqn:Emode.
  - apply str_eqb_eq in Emode. subst main_mode.
    destruct (handle_input_chat_world api_key role reply_language
                doc_text_context text w) as [(reply & Hs & ->)|(p & ->)].
    + simpl. apply Forall_app. split; [exact Hw|].
      constructor; [|constructor]. split; [exact Htext|exact Hs].
    + destruct (gateway (init_gemini api_key) p); simpl; [|exact Hw].
      apply Forall_app. split; [exact Hw|].
      constructor; [|constructor].
      split; [exact Htext|apply strip_idempotent].
  - apply str_eqb_neq in Emode.
    rewrite (handle_input_agentic_world api_key main_mode role reply_language
               doc_text_context text w Emode).
    destruct (gateway _ _); simpl; [|exact Hw].
    apply Forall_app. split; [exact Hw|].
    constructor; [|constructor].
    split; [exact Htext|apply strip_idempotent].
Qed.

(** X10: one run makes at most one model call and stores at most one
    turn, at the end of the lists, and only when it completes; an agent
    run is stored only together with a turn. *)
Theorem turn_controller_one_step
    (api_key main_mode role reply_language doc_text_context : str)
    (user_input : option str) (w : world) :
  let out :=
    turn_controller api_key main_mode role reply_language doc_text_context
      user_input w in
  exists (turns : list Turn) (runs : list AgentRun) (sent : list payload),
    messages (snd out) = messages w ++ turns
    /\ agent_runs (snd out) = agent_runs w ++ runs
    /\ calls (snd out) = calls w ++ sent
    /\ length turns <= 1
    /\ length sent <= 1
    /\ length runs <= length turns
    /\ (fst out = Ok tt \/ turns = []).
Proof.
  cbv zeta.
  destruct (turn_controller_cases api_key main_mode role reply_language
              doc_text_context user_input w)
    as [[_ ->]|[(_ & _ & ->)|(text & _ & Htext & _ & ->)]].
  - exists [], [], []. simpl. rewrite !app_nil_r. repeat split; auto.
  - exists [], [], []. simpl. rewrite !app_nil_r. repeat split; auto.
  - destruct (str_eqb main_mode (lit "Chat")) eqn:Emode.
    + apply str_eqb_eq in Emode. subst main_mode.
      destruct (handle_input_chat_world api_key role reply_language
                  doc_text_context text w) as [(reply & Hs & ->)|(p & ->)].
      * eexists [_], [], []. simpl. rewrite !app_nil_r. repeat split; auto.
      * destruct (gateway (init_gemini api_key) p).
        -- eexists [_], [], [_]. simpl. rewrite !app_nil_r.
           repeat split; auto.
        -- eexists [], [], [_]. simpl. rewrite !app_nil_r.
           repeat split; auto.
    + apply str_eqb_neq in Emode.
      rewrite (handle_input_agentic_world api_key main_mode role reply_language
                 doc_text_context text w Emode).
      destruct (gateway _ _).
      * eexists [_], [_], [_]. simpl. repeat split; auto.
      * eexists [], [], [_]. simpl. rewrite !app_nil_r. repeat split; auto.
Qed.

(** X11: a run that completes on a submitted input with a key stores
    exactly one turn, whose user text is the input as typed; in chat mode
    the agent runs are untouched, in the agentic mode one agent run is
    stored whose text is the assistant text of that turn. *)
Theorem completed_run_stores_turn
    (api_key main_mode role reply_language doc_text_context text : str)
    (w : world) :
  text <> [] -> api_key <> [] ->
  let out :=
    turn_controller api_key main_mode role reply_language doc_text_context
      (Some text) w in
  fst out = Ok tt ->
  exists reply,
    messages (snd out)
    = messages w ++ [{| user := text; assistant := reply |}]
    /\ ((main_mode = lit "Chat" /\ agent_runs (snd out) = agent_runs w)
        \/ (main_mode <> lit "Chat" /\
            agent_runs (snd out)
            = agent_runs w ++ [{| agentic_explanation := reply |}])).
Proof.
  intros Htext Hkey. cbv zeta.
  destruct (turn_controller_cases api_key main_mode role reply_language
              doc_text_context (Some text) w)
    as [[Hs _]|[(_ & Hk & _)|(text' & Ht & _ & _ & ->)]].
  - destruct text; [congruence|discriminate Hs].
  - congruence.
  - injection Ht as <-.
    destruct (str_eqb main_mode (lit "Chat")) eqn:Emode.
    + apply str_eqb_eq in Emode. subst main_mode.
      destruct (handle_input_chat_world api_key role reply_language
                  doc_text_context text w) as [(reply & Hs & ->)|(p & ->)].
      * intros _. exists reply. simpl. auto.
      * destruct (gateway (init_gemini api_key) p) as [response|];
          simpl; [|discriminate].
        intros _. exists (strip response). auto.
    + apply str_eqb_neq in Emode.
      rewrite (handle_input_agentic_world api_key main_mode role reply_language
                 doc_text_context text w Emode).
      destruct (gateway _ _) as [response|]; simpl; [|discriminate].
      intros _. exists (strip response). auto.
Qed.

(** X12: the stored history reaches the model only under the General
    Assistant role: under each of the five other roles what a chat input
    sends does not depend on the world, so not on the stored turns. *)
Theorem history_not_sent (model : GenerativeModel)
    (role user_input reply_language doc_text_context : str) :
  In role (tl role_options) ->
  exists sent : list payload, forall w : world,
    calls (snd (chat_route model role user_input reply_language
                  doc_text_context w))
    = calls w ++ sent.
Proof.
  unfold role_options. simpl tl. simpl In.
  intros [<-|[<-|[<-|[<-|[<-|[]]]]]];
    unfold Script.chat_route; decide_roles;
    unfold Script.tool_coding_help, Script.tool_resume_review,
      Script.tool_emotional_support, Script.tool_document_qa,
      Script.tool_translate;
    try match goal with
        | |- context [if negb ?c then _ else _] =>
          destruct (negb c);
            [exists []; intros w; now rewrite app_nil_r|]
        end;
    eexists; intros w; apply bind_generate_calls.
Qed.

(** X13: under Resume Review a document context that is not empty but
    blank is taken as the resume: the typed input is not looked at, the
    fixed message is the reply and the model is not called. *)
Theorem blank_document_shadows_resume (model : GenerativeModel)
    (user_input reply_language doc_text_context : str) (w : world) :
  doc_text_context <> [] ->
  forallb isspace doc_text_context = true ->
  chat_route model (lit "Resume Review") user_input reply_language
    doc_text_context w
  = (Ok (lit "Please upload your resume as PDF/TXT or paste it so I can review it."),
     w).
Proof.
  intros Hne Hblank. unfold Script.chat_route. decide_roles.
  destruct doc_text_context as [|c doc]; [congruence|].
  simpl truthy. cbv iota. unfold Script.tool_resume_review.
  now rewrite truthy_strip, Hblank.
Qed.

(** X14: the translator, the coding help and the emotional support make
    no blank check and cut nothing: for every input, also an empty or
    blank one, the model is called once, with a prompt that is a fixed
    text around the whole input and the language. *)
Theorem plain_tools_send_whole_input (model : GenerativeModel) :
  (exists a b c : str, forall (text target_language : str) (w : world),
      calls (snd (tool_translate model text target_language w))
      = calls w ++ [Prompt (a ++ target_language ++ b ++ text ++ c)])
  /\ (exists a b c : str, forall (question language : str) (w : world),
         calls (snd (tool_coding_help model question language w))
         = calls w ++ [Prompt (a ++ question ++ b ++ language ++ c)])
  /\ (exists a b c : str, forall (message language : str) (w : world),
         calls (snd (tool_emotional_support model message language w))
         = calls w ++ [Prompt (a ++ message ++ b ++ language ++ c)]).
Proof.
  split; [|split].
  - pose (p := translate_prompt [] []). unfold translate_prompt in p.
    match eval unfold p in p with
    | ?a ++ _ ++ ?b ++ ?t ++ _ ++ ?rest => exists a, (b ++ t), rest
    end.
    clear p. intros text target_language w.
    unfold Script.tool_translate. rewrite bind_generate_calls.
    unfold translate_prompt. now rewrite <- !app_assoc.
  - pose (p := coding_help_prompt [] []). unfold coding_help_prompt in p.
    match eval unfold p in p with
    | ?a ++ _ ++ ?b ++ _ ++ ?rest => exists a, b, rest
    end.
    clear p. intros question language w.
    unfold Script.tool_coding_help. now rewrite bind_generate_calls.
  - pose (p := emotional_support_prompt [] []).
    unfold emotional_support_prompt in p.
    match eval unfold p in p with
    | ?a ++ _ ++ ?b ++ _ ++ ?rest => exists a, b, rest
    end.
    clear p. intros message language w.
    unfold Script.tool_emotional_support. now rewrite bind_generate_calls.
Qed.

End Controller.

(** X15: the agentic prompt looks at the last six turns only: turns
    before them change nothing in it, and a history of six turns or
    fewer is in it whole. *)
Theorem agentic_old_turns_ignored
    (goal role language doc_text : str) (older window : list Turn) :
  length window = 6 ->
  agentic_prompt goal role language doc_text (older ++ window)
  = agentic_prompt goal role language doc_text window
  /\ forall short : list Turn,
       length short <= 6 -> slice_from (-6) short = short.
Proof.
  intros Hsix. split.
  - assert (E : history_text (older ++ window) = history_text window).
    { rewrite !history_text_eq.
      destruct window as [|t window]; [discriminate|].
      destruct (older ++ t :: window) eqn:Eo;
        [now destruct older|].
      rewrite <- Eo. f_equal. f_equal. f_equal.
      rewrite length_app, Hsix.
      replace (length older + 6 - 6) with (length older + 0) by lia.
      rewrite skipn_app, Nat.add_0_r, skipn_all.
      replace (length older - length older) with 0 by lia.
      reflexivity. }
    unfold agentic_prompt. now rewrite E.
  - intros short Hshort. rewrite slice_from_minus6.
    replace (length short - 6) with 0 by lia. reflexivity.
Qed.

End ControllerMore.

(** ** The whole page *)

Module PageFacts.
Import Script Page PromptFacts ExtractionFacts ExtractionMore ControllerFacts
  ControllerMore.
Local Open Scope nat_scope.

(** The two chat messages that show one stored turn. *)
Definition turn_elements (m : Turn) : list element :=
  [chat_message (lit "user") (user m);
   chat_message (lit "assistant") (assistant m)].

Lemma display_loop_shows (ms : list Turn) : forall w,
  display_loop ms w
  = (Ok tt,
     {| messages := messages w;
        agent_runs := agent_runs w;
        screen := screen w ++ flat_map turn_elements ms;
        calls := calls w |}).
Proof.
  induction ms as [|m ms IH]; intros w.
  - simpl. rewrite app_nil_r. now destruct w.
  - simpl display_loop. cbv beta iota delta [bind show].
    rewrite IH. cbn [messages agent_runs screen calls].
    simpl flat_map. now rewrite <- !app_assoc.
Qed.

Lemma export_str_eq (ms : list Turn) :
  export_str ms = join nl (map history_line ms).
Proof. unfold export_str. now rewrite fold_left_snoc. Qed.

(** X16: the exported chat is one block per stored turn, in order, each
    the "User:" line and the "Assistant:" line the agentic prompt also
    uses, with one more newline between two blocks; exports compose, and
    an empty chat exports as the empty string. *)
Theorem export_str_blocks (ms1 ms2 : list Turn) :
  ms1 <> [] -> ms2 <> [] ->
  export_str (ms1 ++ ms2) = export_str ms1 ++ nl ++ export_str ms2
  /\ export_str (ms1 ++ ms2) = join nl (map history_line (ms1 ++ ms2))
  /\ export_str [] = [].
Proof.
  intros H1 H2. rewrite !export_str_eq. split; [|split]; [|reflexivity..].
  rewrite map_app. apply join_app.
  - destruct ms1; [congruence|discriminate].
  - destruct ms2; [congruence|discriminate].
Qed.

(** X17: the stored chat is shown again turn by turn, in order, the
    user message before the assistant message, and showing it changes
    neither the store nor the calls. *)
Theorem display_chat_shows_store (w : world) :
  display_chat w
  = (Ok tt,
     {| messages := messages w;
        agent_runs := agent_runs w;
        screen :=
          screen w
            ++ flat_map (fun m => [chat_message (lit "user") (user m);
                                   chat_message (lit "assistant") (assistant m)])
                 (messages w);
        calls := calls w |}).
Proof.
  unfold display_chat. cbv beta iota delta [bind get_messages].
  apply display_loop_shows.
Qed.

Section Run.

Variable gateway : GenerativeModel -> payload -> option str.
Variable pypdf2_installed : bool.
Variable pdf_pages : bytes -> option (list (option str)).

Local Abbreviation turn_controller := (Script.turn_controller gateway).
Local Abbreviation page := (Page.page gateway pypdf2_installed pdf_pages).
Local Abbreviation doc_text_context :=
  (Script.doc_text_context pypdf2_installed pdf_pages).

(** X18: what a chat run shows for the turn it stores is what every
    later run shows again for it: when the run completes, the screen has
    grown by the two chat messages of the stored turn. *)
Theorem chat_turn_shown_as_stored
    (api_key role reply_language doc text : str) (w : world) :
  text <> [] -> api_key <> [] ->
  let out :=
    turn_controller api_key (lit "Chat") role reply_language doc (Some text) w in
  fst out = Ok tt ->
  exists t : Turn,
    messages (snd out) = messages w ++ [t]
    /\ screen (snd out) = screen w ++ turn_elements t
    /\ flat_map turn_elements (messages (snd out))
       = flat_map turn_elements (messages w) ++ turn_elements t.
Proof.
  intros Htext Hkey. cbv zeta.
  destruct (turn_controller_cases gateway api_key (lit "Chat") role
              reply_language doc (Some text) w)
    as [[Hs _]|[(_ & Hk & _)|(text' & Ht & _ & _ & ->)]].
  - destruct text; [congruence|discriminate Hs].
  - congruence.
  - injection Ht as <-.
    destruct (handle_input_chat_world gateway api_key role reply_language
                doc text w) as [(reply & Hs & ->)|(p & ->)].
    + intros _. exists {| user := text; assistant := reply |}.
      cbn [fst snd messages screen]. repeat split.
      * now rewrite <- app_assoc.
      * rewrite flat_map_app. reflexivity.
    + destruct (gateway (init_gemini api_key) p) as [response|];
        simpl; [|discriminate].
      intros _. exists {| user := text; assistant := strip response |}.
      cbn [fst snd messages screen]. repeat split.
      * now rewrite <- app_assoc.
      * rewrite flat_map_app. reflexivity.
Qed.

(** X19: in the agentic mode the input is shown under the heading
    "**Goal / Task:**" while the run lasts but stored without it, so
    what the run shows for the turn is not what later runs show. *)
Theorem agentic_turn_shown_with_heading
    (api_key main_mode role reply_language doc text : str) (w : world) :
  main_mode <> lit "Chat" -> text <> [] -> api_key <> [] ->
  let out :=
    turn_controller api_key main_mode role reply_language doc (Some text) w in
  fst out = Ok tt ->
  exists t : Turn,
    messages (snd out) = messages w ++ [t]
    /\ user t = text
    /\ screen (snd out)
       = screen w
           ++ [chat_message (lit "user") (lit "**Goal / Task:** " ++ user t);
               chat_message (lit "assistant") (assistant t)]
    /\ screen (snd out) <> screen w ++ turn_elements t.
Proof.
  intros Hmode Htext Hkey. cbv zeta.
  destruct (turn_controller_cases gateway api_key main_mode role
              reply_language doc (Some text) w)
    as [[Hs _]|[(_ & Hk & _)|(text' & Ht & _ & _ & ->)]].
  - destruct text; [congruence|discriminate Hs].
  - congruence.
  - injection Ht as <-.
    rewrite (handle_input_agentic_world gateway api_key main_mode role
               reply_language doc text w Hmode).
    destruct (gateway _ _) as [response|]; simpl; [|discriminate].
    intros _. exists {| user := text; assistant := strip response |}.
    simpl. rewrite <- app_assoc. repeat split.
    intros E. apply app_inv_head in E. simpl in E.
    injection E as E. apply (f_equal (@length N)) in E.
    simpl in E. lia.
Qed.

(** X20: a run with "Clear Chat" clicked and no input empties both
    lists before the chat is shown again, so the run shows no turn and
    calls nothing; clicking again changes nothing more. *)
Theorem clear_chat_run (wd : widgets) (doc : str) (w : world) :
  clear_clicked wd = true ->
  chat_typed wd = None ->
  doc_text_context (files wd) = Ok doc ->
  fst (page wd w)
  = (Ok tt,
     {| messages := []; agent_runs := [];
        screen := screen w; calls := calls w |})
  /\ fst (page wd (snd (fst (page wd w)))) = fst (page wd w).
Proof.
  intros Hclear Hchat Hdoc.
  assert (E : forall w0,
             fst (page wd w0)
             = (Ok tt,
                {| messages := []; agent_runs := [];
                   screen := screen w0; calls := calls w0 |})).
  { intros w0. unfold Page.page, sidebar. rewrite Hdoc, Hclear, Hchat.
    destruct (download_clicked wd); reflexivity. }
  split; [apply E|]. now rewrite !E.
Qed.

(** X21: the uploads are read before anything else happens: when a
    PDF among them cannot be read the run ends there, with nothing
    cleared, nothing shown, no input handled and no model call. *)
Theorem unreadable_pdf_stops_page (wd : widgets) (w : world)
    (files1 : list file) (texts : list str) (f : file) (files2 : list file) :
  files wd = files1 ++ f :: files2 ->
  Forall2 (fun g t => extract_one pypdf2_installed pdf_pages g = Ok t)
    files1 texts ->
  endswith (lower (name f)) (lit ".txt") = false ->
  endswith (lower (name f)) (lit ".pdf") = true ->
  pypdf2_installed = true ->
  pdf_pages (data f) = None ->
  page wd w = ((Raise PdfReadError, w), []).
Proof.
  intros Hfiles HF Htxt Hpdf Hi Hp.
  assert (He : extract_one pypdf2_installed pdf_pages f = Raise PdfReadError).
  { unfold extract_one, read_pdf_file. now rewrite Htxt, Hpdf, Hi, Hp. }
  assert (Hd : doc_text_context (files wd) = Raise PdfReadError).
  { rewrite Hfiles. unfold Script.doc_text_context, get_uploaded_text.
    rewrite (extract_loop_raise _ _ files1 f files2 texts PdfReadError [] HF He).
    now destruct files1. }
  unfold Page.page, sidebar. now rewrite Hd.
Qed.

End Run.

End PageFacts.

(** ** More scenarios *)

Module MoreScenarios.
Import Script Page PromptFacts ControllerFacts ExtractionFacts ExtractionMore
  ControllerMore PageFacts Scenarios.
Local Open Scope nat_scope.

Definition agentic : str := lit "Agentic Task / Goal".

Definition empty_txt (n : N) : file :=
  {| name := lit "empty" ++ [0x30 + n]%N ++ lit ".txt"; data := [] |}.

Definition one_turn : world :=
  {| messages := [turn_of 1]; agent_runs := []; screen := []; calls := [] |}.

Definition clear_click : widgets :=
  {| key_typed := lit "key"; mode_choice := lit "Chat";
     role_choice := lit "General Assistant";
     language_choice := lit "English"; language_typed := lit "English";
     files := []; clear_clicked := true; download_clicked := false;
     chat_typed := None |}.

Definition broken_upload : widgets :=
  {| key_typed := lit "key"; mode_choice := lit "Chat";
     role_choice := lit "Document QA";
     language_choice := lit "English"; language_typed := lit "English";
     files := [plain_txt] ++ broken_pdf :: []; clear_clicked := true;
     download_clicked := false; chat_typed := Some (lit "what is in it?") |}.

Lemma lit_nonempty_plan : lit "plan my week" <> [].
Proof. intros E. vm_compute in E. discriminate E. Qed.

Lemma lit_nonempty_key : lit "key" <> [].
Proof. intros E. vm_compute in E. discriminate E. Qed.

Lemma agentic_run_witness :
  let out :=
    turn_controller bonjour_gateway (lit "key") agentic (lit "Translator")
      (lit "English") [] (Some (lit "plan my week")) fresh in
  fst out = Ok tt
  /\ messages (snd out)
     = [{| user := lit "plan my week"; assistant := lit "Bonjour" |}]
  /\ agent_runs (snd out) = [{| agentic_explanation := lit "Bonjour" |}].
Proof.
  cbv zeta.
  rewrite (agentic_run bonjour_gateway (lit "key") agentic (lit "Translator")
             (lit "English") [] (lit "plan my week") fresh
             agentic_mode_not_chat lit_nonempty_plan lit_nonempty_key).
  vm_compute. repeat split.
Defined.

Lemma turn_controller_keeps_turns_witness :
  Forall well_formed
    (messages (snd (turn_controller bonjour_gateway (lit "key") (lit "Chat")
                      (lit "Translator") (lit "French") []
                      (Some (lit "Good morning")) one_turn))).
Proof.
  apply (turn_controller_keeps_turns bonjour_gateway (lit "key") (lit "Chat")
           (lit "Translator") (lit "French") [] (Some (lit "Good morning"))
           one_turn).
  constructor; [|constructor].
  split; [intros E; vm_compute in E; discriminate E|vm_compute; reflexivity].
Defined.

Lemma completed_run_stores_turn_witness :
  exists reply,
    messages (snd (turn_controller bonjour_gateway (lit "key") agentic
                     (lit "Coding Help") (lit "English") []
                     (Some (lit "plan my week")) one_turn))
    = messages one_turn
        ++ [{| user := lit "plan my week"; assistant := reply |}].
Proof.
  destruct (completed_run_stores_turn bonjour_gateway (lit "key") agentic
              (lit "Coding Help") (lit "English") [] (lit "plan my week")
              one_turn lit_nonempty_plan lit_nonempty_key)
    as (reply & E & _).
  - vm_compute. reflexivity.
  - exists reply. exact E.
Defined.

Lemma history_not_sent_witness :
  exists sent : list payload, forall w : world,
    calls (snd (chat_route failing_gateway (init_gemini (lit "key"))
                  (lit "Translator") (lit "Good morning") (lit "French") [] w))
    = calls w ++ sent.
Proof.
  apply (history_not_sent failing_gateway (init_gemini (lit "key"))
           (lit "Translator") (lit "Good morning") (lit "French") []).
  unfold role_options. simpl tl. simpl In.
  do 4 right. left. reflexivity.
Defined.

(** Two empty text files make a document context of two newlines, which
    hides a resume typed in the chat. *)
Lemma blank_document_shadows_resume_witness :
  Script.get_uploaded_text true three_empty_pages [empty_txt 1; empty_txt 2]
  = Ok (nl ++ nl)
  /\ chat_route failing_gateway (init_gemini (lit "key")) (lit "Resume Review")
       (lit "Ten years of Rocq proofs.") (lit "English") (nl ++ nl) fresh
     = (Ok (lit "Please upload your resume as PDF/TXT or paste it so I can review it."),
        fresh).
Proof.
  split; [vm_compute; reflexivity|].
  apply (blank_document_shadows_resume failing_gateway
           (init_gemini (lit "key")) (lit "Ten years of Rocq proofs.")
           (lit "English") (nl ++ nl) fresh).
  - discriminate.
  - reflexivity.
Defined.

Lemma agentic_old_turns_ignored_witness :
  agentic_prompt (lit "plan my week") (lit "Coding Help") (lit "English") []
    ([turn_of 1] ++ map turn_of [2; 3; 4; 5; 6; 7]%N)
  = agentic_prompt (lit "plan my week") (lit "Coding Help") (lit "English") []
      (map turn_of [2; 3; 4; 5; 6; 7]%N).
Proof.
  apply (proj1 (agentic_old_turns_ignored (lit "plan my week")
                  (lit "Coding Help") (lit "English") [] [turn_of 1]
                  (map turn_of [2; 3; 4; 5; 6; 7]%N) eq_refl)).
Defined.

Lemma export_str_blocks_witness :
  export_str ([turn_of 1] ++ [turn_of 2])
  = export_str [turn_of 1] ++ nl ++ export_str [turn_of 2].
Proof.
  apply (proj1 (export_str_blocks [turn_of 1] [turn_of 2]
                  ltac:(discriminate) ltac:(discriminate))).
Defined.

Lemma chat_turn_shown_as_stored_witness :
  exists t : Turn,
    messages (snd (turn_controller bonjour_gateway (lit "key") (lit "Chat")
                     (lit "Translator") (lit "French") []
                     (Some (lit "plan my week")) one_turn))
    = messages one_turn ++ [t]
    /\ screen (snd (turn_controller bonjour_gateway (lit "key") (lit "Chat")
                      (lit "Translator") (lit "French") []
                      (Some (lit "plan my week")) one_turn))
       = screen one_turn ++ turn_elements t.
Proof.
  destruct (chat_turn_shown_as_stored bonjour_gateway (lit "key")
              (lit "Translator") (lit "French") [] (lit "plan my week")
              one_turn lit_nonempty_plan lit_nonempty_key)
    as (t & E1 & E2 & _).
  - vm_compute. reflexivity.
  - exists t. split; [exact E1|exact E2].
Defined.

Lemma agentic_turn_shown_with_heading_witness :
  exists t : Turn,
    user t = lit "plan my week"
    /\ screen (snd (turn_controller bonjour_gateway (lit "key") agentic
                      (lit "Translator") (lit "French") []
                      (Some (lit "plan my week")) one_turn))
       <> screen one_turn ++ turn_elements t.
Proof.
  destruct (agentic_turn_shown_with_heading bonjour_gateway (lit "key")
              agentic (lit "Translator") (lit "French") []
              (lit "plan my week") one_turn agentic_mode_not_chat
              lit_nonempty_plan lit_nonempty_key)
    as (t & _ & E1 & _ & E2).
  - vm_compute. reflexivity.
  - exists t. split; [exact E1|exact E2].
Defined.

Lemma clear_chat_run_witness :
  fst (page bonjour_gateway true three_empty_pages clear_click one_turn)
  = (Ok tt,
     {| messages := []; agent_runs := [];
        screen := screen one_turn; calls := calls one_turn |}).
Proof.
  apply (proj1 (clear_chat_run bonjour_gateway true three_empty_pages
                  clear_click [] one_turn eq_refl eq_refl eq_refl)).
Defined.

Lemma unreadable_pdf_stops_page_witness :
  page bonjour_gateway true three_empty_pages broken_upload one_turn
  = ((Raise PdfReadError, one_turn), []).
Proof.
  apply (unreadable_pdf_stops_page bonjour_gateway true three_empty_pages
           broken_upload one_turn [plain_txt] [lit "ok"] broken_pdf []).
  - reflexivity.
  - repeat constructor.
  - vm_compute. reflexivity.
  - vm_compute. reflexivity.
  - reflexivity.
  - reflexivity.
Defined.

End MoreScenarios.

(** ** The decoder yields Unicode scalar values *)

Module Utf8More.
Import Script Utf8 Utf8Facts ExtractionFacts.
Local Open Scope N_scope.

(** A code point that is no surrogate and lies within the code space. *)
Definition scalar (c : N) : Prop :=
  c <= 0x10FFFF /\ (c < 0xD800 \/ 0xDFFF < c).

Definition item_scalar (i : item) : Prop :=
  match i with
  | Char c => scalar c
  | Undecodable => True
  end.

Lemma lor_land_add a b : N.lor a b + N.land a b = a + b.
Proof.
  apply N2Z.inj.
  rewrite !N2Z.inj_add, N2Z.inj_lor, N2Z.inj_land.
  apply Zbitwise.Z.add_lor_land.
Qed.

Lemma lor_le_add a b : N.lor a b <= a + b.
Proof. pose proof (lor_land_add a b). lia. Qed.

Lemma le_lor_l a b : a <= N.lor a b.
Proof.
  pose proof (lor_land_add a b). pose proof (N.land_le_r a b). lia.
Qed.

Lemma le_lor_r a b : b <= N.lor a b.
Proof. rewrite N.lor_comm. apply le_lor_l. Qed.

Lemma shiftl6 a : N.shiftl a 6 = a * 64.
Proof. now rewrite N.shiftl_mul_pow2. Qed.

Lemma shiftl12 a : N.shiftl a 12 = a * 4096.
Proof. now rewrite N.shiftl_mul_pow2. Qed.

Lemma shiftl18 a : N.shiftl a 18 = a * 262144.
Proof. now rewrite N.shiftl_mul_pow2. Qed.

(** The payload of a continuation byte. *)
Lemma cont_low b :
  is_cont b = true ->
  N.land (Byte.to_N b) 0x3F = Byte.to_N b - 0x80
  /\ 0x80 <= Byte.to_N b /\ Byte.to_N b < 0xC0.
Proof.
  unfold is_cont. cbv zeta. intros H. apply andb_prop in H as [H1 H2].
  apply N.leb_le in H1. apply N.ltb_lt in H2. split; [|lia].
  change 0x3F with (N.ones 6). rewrite N.land_ones.
  change (2 ^ 6) with 64.
  pose proof (N.Div0.div_mod (Byte.to_N b) 64) as E.
  pose proof (N.mod_lt (Byte.to_N b) 64 ltac:(discriminate)) as L.
  assert (Byte.to_N b / 64 = 2); [|lia].
  assert (128 / 64 <= Byte.to_N b / 64) by now apply N.Div0.div_le_mono.
  assert (Byte.to_N b / 64 <= 191 / 64) by (apply N.Div0.div_le_mono; lia).
  change (128 / 64) with 2 in *. change (191 / 64) with 2 in *. lia.
Qed.

Lemma cp2_scalar b1 b2 : scalar (cp2 b1 b2).
Proof.
  unfold scalar, cp2.
  pose proof (lor_le_add (N.shiftl (N.land (Byte.to_N b1) 0x1F) 6)
                (N.land (Byte.to_N b2) 0x3F)) as U.
  pose proof (N.land_le_r (Byte.to_N b1) 0x1F).
  pose proof (N.land_le_r (Byte.to_N b2) 0x3F).
  rewrite shiftl6 in *. lia.
Qed.

Lemma lead_low (n base : N) (k : N) :
  base <= n -> n < base + 2 ^ k -> base mod 2 ^ k = 0 ->
  N.land n (N.ones k) = n - base.
Proof.
  intros Hlo Hhi Hbase. rewrite N.land_ones.
  replace n with ((n - base) + base) at 1 by lia.
  rewrite <- N.Div0.add_mod_idemp_r, Hbase, N.add_0_r.
  apply N.mod_small. lia.
Qed.

Lemma cp3_scalar b1 b2 b3 :
  (Byte.to_N b1 <? 0xE0) = false ->
  (Byte.to_N b1 <? 0xF0) = true ->
  ok2_of3 b1 b2 = true ->
  is_cont b3 = true ->
  scalar (cp3 b1 b2 b3).
Proof.
  intros H1 H2 Hok H3. apply N.ltb_ge in H1. apply N.ltb_lt in H2.
  unfold ok2_of3 in Hok. apply andb_prop in Hok as [Hc2 Hx].
  apply negb_true_iff in Hx.
  destruct (cont_low b2 Hc2) as (E2 & L2 & U2).
  destruct (cont_low b3 H3) as (E3 & L3 & U3).
  assert (E1 : N.land (Byte.to_N b1) 0x0F = Byte.to_N b1 - 0xE0).
  { apply (lead_low _ 0xE0 4); [lia|change (2 ^ 4) with 16; lia|reflexivity]. }
  unfold scalar, cp3. rewrite E1, E2, E3, shiftl12, shiftl6.
  set (x1 := Byte.to_N b1 - 224) in *.
  set (x2 := Byte.to_N b2 - 128) in *.
  set (x3 := Byte.to_N b3 - 128) in *.
  pose proof (lor_le_add (x1 * 4096) (N.lor (x2 * 64) x3)).
  pose proof (lor_le_add (x2 * 64) x3).
  pose proof (le_lor_l (x1 * 4096) (N.lor (x2 * 64) x3)).
  destruct (Byte.to_N b2 <? 0xA0) eqn:Ea.
  - apply N.ltb_lt in Ea. apply N.eqb_neq in Hx. subst x1 x2 x3. lia.
  - apply N.ltb_ge in Ea. apply N.eqb_neq in Hx. subst x1 x2 x3. lia.
Qed.

Lemma cp4_scalar b1 b2 b3 b4 :
  (Byte.to_N b1 <? 0xF0) = false ->
  (Byte.to_N b1 <? 0xF5) = true ->
  ok2_of4 b1 b2 = true ->
  is_cont b3 = true ->
  is_cont b4 = true ->
  scalar (cp4 b1 b2 b3 b4).
Proof.
  intros H1 H2 Hok H3 H4. apply N.ltb_ge in H1. apply N.ltb_lt in H2.
  unfold ok2_of4 in Hok. apply andb_prop in Hok as [Hc2 Hx].
  apply negb_true_iff in Hx.
  destruct (cont_low b2 Hc2) as (E2 & L2 & U2).
  destruct (cont_low b3 H3) as (E3 & L3 & U3).
  destruct (cont_low b4 H4) as (E4 & L4 & U4).
  assert (E1 : N.land (Byte.to_N b1) 0x07 = Byte.to_N b1 - 0xF0).
  { apply (lead_low _ 0xF0 3); [lia|change (2 ^ 3) with 8; lia|reflexivity]. }
  unfold scalar, cp4. rewrite E1, E2, E3, E4, shiftl18, shiftl12, shiftl6.
  set (x1 := Byte.to_N b1 - 240) in *.
  set (x2 := Byte.to_N b2 - 128) in *.
  set (x3 := Byte.to_N b3 - 128) in *.
  set (x4 := Byte.to_N b4 - 128) in *.
  pose proof (lor_le_add (x1 * 262144)
                (N.lor (x2 * 4096) (N.lor (x3 * 64) x4))).
  pose proof (lor_le_add (x2 * 4096) (N.lor (x3 * 64) x4)).
  pose proof (lor_le_add (x3 * 64) x4).
  pose proof (le_lor_l (x1 * 262144)
                (N.lor (x2 * 4096) (N.lor (x3 * 64) x4))).
  pose proof (le_lor_l (x2 * 4096) (N.lor (x3 * 64) x4)).
  pose proof (le_lor_r (x1 * 262144)
                (N.lor (x2 * 4096) (N.lor (x3 * 64) x4))).
  destruct (Byte.to_N b2 <? 0x90) eqn:Ea.
  - apply N.ltb_lt in Ea. apply N.eqb_neq in Hx. subst x1 x2 x3 x4. lia.
  - apply N.ltb_ge in Ea. apply N.eqb_neq in Hx. subst x1 x2 x3 x4. lia.
Qed.

Lemma scan_scalar_upto n :
  forall bs, (length bs <= n)%nat -> Forall item_scalar (scan bs).
Proof.
  induction n as [|n IH]; intros bs Hn.
  - destruct bs; [constructor|simpl in Hn; lia].
  - destruct bs as [|b1 r1]; [constructor|].
    simpl scan.
    repeat match goal with
           | |- context [if ?c then _ else _] => destruct c eqn:?
           | |- context [match ?l with [] => _ | _ :: _ => _ end] =>
             is_var l; destruct l
           end;
      repeat first [apply Forall_nil | apply Forall_cons];
      try exact I;
      try (apply IH; simpl in *; lia).
    + match goal with H : (_ <? 128) = true |- _ => apply N.ltb_lt in H end.
      unfold item_scalar, scalar. lia.
    + apply cp2_scalar.
    + now apply cp3_scalar.
    + now apply cp4_scalar.
Qed.

Lemma chars_ignore_scalar its :
  Forall item_scalar its -> Forall scalar (chars Ignore its).
Proof.
  induction 1 as [|[c|] its Hi _ IH]; simpl; [constructor| |exact IH].
  constructor; [exact Hi|exact IH].
Qed.

(** X22: whatever the bytes of a text file, the text extracted from it
    holds Unicode scalar values only: no code point above U+10FFFF and no
    surrogate, so the text can always be encoded again. *)
Theorem read_txt_file_scalar_values (f : file) :
  exists s : str,
    read_txt_file f = Ok s
    /\ Forall (fun c => c <= 0x10FFFF /\ (c < 0xD800 \/ 0xDFFF < c)) s.
Proof.
  exists (chars Ignore (scan (data f))). split; [apply read_txt_file_ok|].
  apply chars_ignore_scalar, (scan_scalar_upto (length (data f))). lia.
Qed.

End Utf8More.

(** ** Extraction of the files that can be read *)

Module ExtractionReadable.
Import Script ExtractionFacts ExtractionMore.
Local Open Scope nat_scope.

Section Extraction.

Variable pypdf2_installed : bool.
Variable pdf_pages : bytes -> option (list (option str)).

Local Abbreviation extract_one :=
  (Script.extract_one pypdf2_installed pdf_pages).
Local Abbreviation get_uploaded_text :=
  (Script.get_uploaded_text pypdf2_installed pdf_pages).





End Extraction.



(** The scenario of the witness, computed: the text file with its bad
    bytes dropped, the placeholder, the PDF of three pages without text
    and the second text file. *)
Example readable_uploads_text :
  Script.get_uploaded_text true three_empty_pages
    [notes_txt; photo_png; scan_pdf; plain_txt]
  = Ok (lit "hi

Unsupported file type: photo.png

" ++ nl ++ nl ++ lit "

ok").
Proof. vm_compute. reflexivity. Qed.

End ExtractionReadable.
